(** * Evaluation of speed-estimation logs against the ground truth

    A shallow embedding of
    [speed_estimation/modules/evaluation/evaluate.py]: the log loader
    ([__load_log]), the two window aggregators, the alignment engine
    ([__generate_aligned_estimations]) and the report builder
    ([plot_absolute_error]), followed by the properties proved about them.

    Python exceptions are values of [exn] carried by [result]; the charts
    shown, the files written and the ground-truth file read are recorded as a
    trace of [event]s.  Text printed on standard output is not modelled. *)

From Stdlib Require Import List String Ascii ZArith QArith Bool Lia.
From Stdlib Require Import Numbers.DecimalString.
Import ListNotations.

Local Open Scope string_scope.
Local Open Scope list_scope.

(** ** Python strings *)

Module PyStr.

(** [s.startswith(p)] *)
Definition startswith (s p : string) : bool := String.prefix p s.

(** [s[n:]] *)
Fixpoint drop (n : nat) (s : string) : string :=
  match n, s with
  | O, _ => s
  | S _, EmptyString => EmptyString
  | S n', String _ s' => drop n' s'
  end.

(** [s.lstrip(c)] for a single character [c] *)
Fixpoint lstrip (c : ascii) (s : string) : string :=
  match s with
  | EmptyString => EmptyString
  | String a s' => if Ascii.eqb a c then lstrip c s' else s
  end.

(** [s.rstrip(c)] for a single character [c] *)
Fixpoint rstrip (c : ascii) (s : string) : string :=
  match s with
  | EmptyString => EmptyString
  | String a s' =>
      match rstrip c s' with
      | EmptyString => if Ascii.eqb a c then EmptyString else String a EmptyString
      | r => String a r
      end
  end.

(** [s.strip(c)]: the characters [c] are removed at both ends *)
Definition strip (c : ascii) (s : string) : string := lstrip c (rstrip c s).

(** [s.split(c)]: never empty, the empty string splits into one empty item *)
Fixpoint split (c : ascii) (s : string) : list string :=
  match s with
  | EmptyString => [EmptyString]
  | String a s' =>
      if Ascii.eqb a c then EmptyString :: split c s'
      else match split c s' with
           | [] => [String a EmptyString]
           | h :: t => String a h :: t
           end
  end.

(** [l[-1]] on the list a [split] returns *)
Definition last_item (l : list string) : string := List.last l EmptyString.

(** [c in s] *)
Fixpoint contains (c : ascii) (s : string) : bool :=
  match s with
  | EmptyString => false
  | String a s' => Ascii.eqb a c || contains c s'
  end.

(** [str(n)] for an integer *)
Definition str (n : Z) : string := NilEmpty.string_of_int (Z.to_int n).

End PyStr.

(** ** The regular expression of the video path: the literal [Video: ]
    followed by one group, dot star *)

Module Re.

Definition newline : ascii := "010"%char.

(** What the group dot star captures at the start of [s]: the dot matches
    every character but the newline, and the star is greedy. *)
Fixpoint dot_star (s : string) : string :=
  match s with
  | EmptyString => EmptyString
  | String a s' => if Ascii.eqb a newline then EmptyString else String a (dot_star s')
  end.

(** [re.search] of a literal [p] followed by the group: the leftmost place where
    [p] occurs, and group 1 taken from there; [None] when [p] occurs
    nowhere. *)
Fixpoint search_group (p s : string) : option string :=
  if String.prefix p s then Some (dot_star (PyStr.drop (String.length p) s))
  else match s with
       | EmptyString => None
       | String _ s' => search_group p s'
       end.

End Re.

(** ** Numbers

    The speeds are 64-bit floating point numbers of numpy and pandas.  The
    development does not fix their arithmetic: it is stated over any type
    [F] with a NaN, the subtraction, the mean of a list without NaN (a sum
    divided by a count) and the comparisons against an integer. *)

Class Float64 : Type := {
  F : Type;
  NaN : F;
  isnan : F -> bool;
  fsub : F -> F -> F;
  of_int : Z -> F;
  np_mean : list F -> F;
  gt_int : F -> Z -> bool;
  le_int : F -> Z -> bool;
  isnan_NaN : isnan NaN = true
}.

(** ** Exceptions and results *)

Inductive exn : Type :=
| FileNotFoundError
| JSONDecodeError
| KeyError (key : string)
| IndexError
| ValueError
| TypeError
| Exception (msg : string).

Inductive result (A : Type) : Type :=
| Ok (a : A)
| Raise (e : exn).

Arguments Ok {A} a.
Arguments Raise {A} e.

Definition rbind {A B : Type} (r : result A) (f : A -> result B) : result B :=
  match r with
  | Ok a => f a
  | Raise e => Raise e
  end.

Declare Scope result_scope.
Delimit Scope result_scope with result.
Notation "x <- r ;; k" := (rbind r (fun x => k))
  (at level 61, r at next level, right associativity) : result_scope.

Fixpoint map_result {A B : Type} (f : A -> result B) (l : list A) : result (list B) :=
  match l with
  | [] => Ok []
  | a :: l' =>
      (b <- f a ;;
       bs <- map_result f l' ;;
       Ok (b :: bs))%result
  end.

Fixpoint fold_result {A S : Type} (f : S -> A -> result S) (l : list A) (s : S) : result S :=
  match l with
  | [] => Ok s
  | a :: l' => (s' <- f s a ;; fold_result f l' s')%result
  end.

(** ** Python dictionaries, in insertion order *)

Module Dict.

Definition t (V : Type) : Type := list (string * V).

Fixpoint get {V : Type} (d : t V) (k : string) : option V :=
  match d with
  | [] => None
  | (k', v) :: d' => if String.eqb k' k then Some v else get d' k
  end.

(** [d[k] = v]: an existing key keeps its place *)
Fixpoint set {V : Type} (d : t V) (k : string) (v : V) : t V :=
  match d with
  | [] => [(k, v)]
  | (k', v') :: d' => if String.eqb k' k then (k', v) :: d' else (k', v') :: set d' k v
  end.

Definition keys {V : Type} (d : t V) : list string := map fst d.

(** [{k: v for k in ks}] *)
Definition of_keys {V : Type} (ks : list string) (v : V) : t V :=
  fold_left (fun d k => set d k v) ks [].

(** [{**d, **e}] *)
Definition update {V : Type} (d e : t V) : t V :=
  fold_left (fun acc kv => set acc (fst kv) (snd kv)) e d.

End Dict.

(** [range(start, stop, step)] for a positive [step] *)
Definition range (start stop step : Z) : list Z :=
  map (fun i => start + Z.of_nat i * step)%Z
      (seq 0 (Z.to_nat ((stop - start + step - 1) / step))).

(** [enumerate(l)] *)
Definition enumerate {A : Type} (l : list A) : list (nat * A) :=
  combine (seq 0 (List.length l)) l.

Fixpoint map2 {A B C : Type} (f : A -> B -> C) (l : list A) (m : list B) : list C :=
  match l, m with
  | a :: l', b :: m' => f a b :: map2 f l' m'
  | _, _ => []
  end.

Definition is_some {A : Type} (o : option A) : bool :=
  match o with
  | Some _ => true
  | None => false
  end.

(** [a != b] negated, for a path that may be [None] *)
Definition path_eqb (a b : option string) : bool :=
  match a, b with
  | Some s, Some t => String.eqb s t
  | None, None => true
  | _, _ => false
  end.

(** [os.path.join(a, b)] on POSIX: an absolute [b] replaces [a], and a
    slash is put in between unless [a] is empty or ends with one ([a] ends
    with a slash when stripping the slashes at its end changes it) *)
Definition os_path_join (a b : string) : string :=
  if PyStr.startswith b "/" then b
  else if String.eqb a "" then b
  else if String.eqb (PyStr.rstrip "/" a) a then (a ++ "/" ++ b)%string
  else (a ++ b)%string.

(** ** The evaluation module *)

Section Model.

Context `{Float64}.

(** One record of the log as [json.loads] returns it, read at the two keys
    the module uses; [None] stands for a key the record does not have. *)
Record line_dict : Type := {
  frameId : option Z;
  avgSpeedTowards : option F
}.

(** One row of [cars.csv] *)
Record car : Type := {
  start : F;
  end_ : F;
  speed : F
}.

(** Columns carry their dtype, a data frame is its columns in order. *)
Inductive column : Type :=
| FloatCol (xs : list F)
| IntCol (ns : list Z).

Definition DataFrame : Type := Dict.t column.

(** What [px.line] is given *)
Record figure : Type := {
  title : string;
  x : string;
  y : list string;
  data : DataFrame
}.

Inductive event : Type :=
| ReadCsv (path : string)
| Show (fig : figure)
| WriteImage (file : string) (fig : figure)
| ToCsv (path : string) (series : list (string * F)).

(** What the module reads from outside: the JSON decoder ([None] is a
    decoding error), the files ([None] is a file that does not exist; a log
    is the list of its lines, each with its newline) and the random hex
    digits of [uuid.uuid4().hex[:10]]. *)
Record world : Type := {
  json_loads : string -> option line_dict;
  open_log : string -> option (list string);
  read_csv : string -> option (list car);
  uuid4_hex10 : string
}.

Variable w : world.

(** *** [__load_log] *)

Definition record_marker : string := "INFO:root:{".

(** The loop body below the first-line test, over the lines of the file *)
Fixpoint read_records (lines : list string) (avg_speeds : list line_dict)
  : result (list line_dict) :=
  match lines with
  | [] => Ok avg_speeds
  | line :: rest =>
      if negb (PyStr.startswith line record_marker) then read_records rest avg_speeds
      else match json_loads w (PyStr.drop 10 line) with
           | None => Raise JSONDecodeError
           | Some d =>
               if is_some (avgSpeedTowards d)
               then read_records rest (avg_speeds ++ [d])
               else read_records rest avg_speeds
           end
  end.

(** [cars_path.strip("/").split("/")[-1]] *)
Definition last_segment (cars_path : string) : string :=
  PyStr.last_item (PyStr.split "/" (PyStr.strip "/" cars_path)).

Definition max_depth : Z := 0.

(** What the first line gives for [cars_path]; it stays [None] when the
    pattern is not found, and when the file has no line. *)
Definition first_line_path (lines : list string) : option string :=
  match lines with
  | [] => None
  | line :: _ => Re.search_group "Video: " line
  end.

Definition __load_log (log_path : string)
  : result (string * list line_dict * option string) :=
  match open_log w log_path with
  | None => Raise FileNotFoundError
  | Some lines =>
      let cars_path := first_line_path lines in
      (avg_speeds <- read_records lines [] ;;
       let video_id :=
         match cars_path with
         | Some p => last_segment p
         | None => "-1"
         end in
       Ok ((video_id ++ "_depth_" ++ PyStr.str max_depth)%string, avg_speeds, cars_path))%result
  end.

(** *** The window aggregators *)

(** [Series.mean()]: NaN is skipped, and the mean of nothing is NaN *)
Definition mean (xs : list F) : F :=
  match filter (fun v => negb (isnan v)) xs with
  | [] => NaN
  | ys => np_mean ys
  end.

Definition truth_selected (timeStart timeEnd : Z) (r : car) : bool :=
  gt_int (start r) timeStart && le_int (end_ r) timeEnd.

Definition __avg_speed_for_time_ground_truth
  (cars_truth : list car) (timeStart timeEnd : Z) : F :=
  let cars_to_avg := filter (truth_selected timeStart timeEnd) cars_truth in
  mean (map speed cars_to_avg).

(** A frame built from a list of records has the column of a key when one
    record has the key; the other records hold NaN there. *)
Definition has_frameId (estimation : list line_dict) : bool :=
  existsb (fun d => is_some (frameId d)) estimation.

Definition has_avgSpeedTowards (estimation : list line_dict) : bool :=
  existsb (fun d => is_some (avgSpeedTowards d)) estimation.

(** [frameId.gt(lo) & frameId.le(hi)]; a comparison with NaN is false *)
Definition frame_selected (lo hi : Z) (d : line_dict) : bool :=
  match frameId d with
  | Some f => (lo <? f)%Z && (f <=? hi)%Z
  | None => false
  end.

Definition speed_cell (d : line_dict) : F :=
  match avgSpeedTowards d with
  | Some v => v
  | None => NaN
  end.

Definition __avg_speed_for_time_estimation
  (estimation : list line_dict) (timeStart timeEnd : Z) : result F :=
  let timeStart := (timeStart * 50)%Z in
  let timeEnd := (timeEnd * 50)%Z in
  if negb (has_frameId estimation) then Raise (KeyError "frameId")
  else
    let estimation_avg := filter (frame_selected timeStart timeEnd) estimation in
    if negb (has_avgSpeedTowards estimation) then Raise (KeyError "avgSpeedTowards")
    else Ok (mean (map speed_cell estimation_avg)).

(** *** [__generate_aligned_estimations] *)

Definition aligned : Type := (list F * Dict.t (list F) * list Z)%type.

(** [estimations[id].append(__avg_speed_for_time_estimation(loaded_avg_speeds[idx], start, end))] *)
Definition append_estimation
  (loaded_avg_speeds : list (list line_dict)) (start end_ : Z)
  (estimations : Dict.t (list F)) (idx_id : nat * string)
  : result (Dict.t (list F)) :=
  let (idx, id) := idx_id in
  match Dict.get estimations id with
  | None => Raise (KeyError id)
  | Some l =>
      match nth_error loaded_avg_speeds idx with
      | None => Raise IndexError
      | Some estimation =>
          (v <- __avg_speed_for_time_estimation estimation start end_ ;;
           Ok (Dict.set estimations id (l ++ [v])))%result
      end
  end.

(** The body of the loop over the window starts *)
Definition window
  (run_ids : list string) (loaded_avg_speeds : list (list line_dict))
  (ground_truth : list car) (st : aligned) (start : Z) : result aligned :=
  let '(truth, estimations, timestamps) := st in
  let end_ := (start + 60)%Z in
  let truth := truth ++ [__avg_speed_for_time_ground_truth ground_truth start end_] in
  (estimations <- fold_result (append_estimation loaded_avg_speeds start end_)
                              (enumerate run_ids) estimations ;;
   Ok (truth, estimations, timestamps ++ [end_]))%result.

Definition __generate_aligned_estimations
  (run_ids : list string) (loaded_avg_speeds : list (list line_dict))
  (ground_truth : list car) : result aligned :=
  fold_result (window run_ids loaded_avg_speeds ground_truth)
              (range 300 (30 * 60) 60)
              ([], Dict.of_keys run_ids [], []).

(** *** Data frames *)

Definition col_length (c : column) : nat :=
  match c with
  | FloatCol xs => List.length xs
  | IntCol ns => List.length ns
  end.

(** [pd.DataFrame(d)] for a dictionary of lists: the lists must have one
    length *)
Definition DataFrame_of_dict (d : Dict.t column) : result DataFrame :=
  match d with
  | [] => Ok []
  | (_, c) :: d' =>
      if forallb (fun kc => Nat.eqb (col_length (snd kc)) (col_length c)) d'
      then Ok d
      else Raise ValueError
  end.

Definition isna_at (c : column) (i : nat) : bool :=
  match c with
  | FloatCol xs =>
      match nth_error xs i with
      | Some v => isnan v
      | None => false
      end
  | IntCol _ => false
  end.

Definition row_has_na (df : DataFrame) (i : nat) : bool :=
  existsb (fun kc => isna_at (snd kc) i) df.

Definition take_rows {A : Type} (keep : nat -> bool) (l : list A) : list A :=
  map snd (filter (fun p => keep (fst p)) (enumerate l)).

Definition col_take (keep : nat -> bool) (c : column) : column :=
  match c with
  | FloatCol xs => FloatCol (take_rows keep xs)
  | IntCol ns => IntCol (take_rows keep ns)
  end.

(** [df.dropna(axis=0)]: the rows with a NaN in some column go *)
Definition dropna (df : DataFrame) : DataFrame :=
  map (fun kc => (fst kc, col_take (fun i => negb (row_has_na df i)) (snd kc))) df.

Definition as_float (c : column) : list F :=
  match c with
  | FloatCol xs => xs
  | IntCol ns => map of_int ns
  end.

(** [c.sub(other)], row by row *)
Definition col_sub (c other : column) : column :=
  match c, other with
  | IntCol a, IntCol b => IntCol (map2 Z.sub a b)
  | _, _ => FloatCol (map2 fsub (as_float c) (as_float other))
  end.

Definition among (names : list string) (k : string) : bool :=
  existsb (String.eqb k) names.

(** [df[names] = df[names].sub(other, axis=0)] *)
Definition sub_columns (df : DataFrame) (names : list string) (other : column)
  : DataFrame :=
  map (fun kc => if among names (fst kc) then (fst kc, col_sub (snd kc) other) else kc) df.

Definition getitem (df : DataFrame) (k : string) : result column :=
  match Dict.get df k with
  | Some c => Ok c
  | None => Raise (KeyError k)
  end.

(** [df[names].mean(axis=0)]: one mean per named column *)
Definition mean_columns (df : DataFrame) (names : list string)
  : result (list (string * F)) :=
  map_result (fun k => (c <- getitem df k ;; Ok (k, mean (as_float c)))%result) names.

(** *** [plot_absolute_error] *)

(** A computation leaves a trace of events and ends in a value or an
    exception. *)
Definition M (A : Type) : Type := (list event * result A)%type.

Definition mbind {A B : Type} (m : M A) (f : A -> M B) : M B :=
  match m with
  | (t, Ok a) => let (t', r) := f a in (t ++ t', r)
  | (t, Raise e) => (t, Raise e)
  end.

Definition lift {A : Type} (r : result A) : M A := ([], r).

Definition emit (e : event) : M unit := ([e], Ok tt).

(** The loaded triples unzipped and unpacked into three names: with no log
    there is nothing to unpack *)
Definition unzip3 (loaded : list (string * list line_dict * option string))
  : result (list string * list (list line_dict) * list (option string)) :=
  match loaded with
  | [] => Raise ValueError
  | _ => Ok (map (fun r => fst (fst r)) loaded,
             map (fun r => snd (fst r)) loaded,
             map snd loaded)
  end.

Definition same_video_message : string :=
  "Can only evaluate logs of the same video in one call!".

(** The loop that checks that all logs are from the same video *)
Fixpoint check_same_video (cars_path : option string) (cars_paths : list (option string))
  : result unit :=
  match cars_paths with
  | [] => Ok tt
  | c :: rest =>
      if negb (path_eqb c cars_path) then Raise (Exception same_video_message)
      else check_same_video cars_path rest
  end.

(** [{"truth": truth, **estimations, "timestamps": timestamps}] *)
Definition table_dict (truth : list F) (estimations : Dict.t (list F))
  (timestamps : list Z) : Dict.t column :=
  Dict.set
    (Dict.update (Dict.set [] "truth" (FloatCol truth))
                 (map (fun kv => (fst kv, FloatCol (snd kv))) estimations))
    "timestamps" (IntCol timestamps).

(** The part of [plot_absolute_error] up to [dropna]: the logs loaded, the
    check of the video, the ground truth read and the table of the windows
    built.  It returns the run ids, the video path and the table. *)
Definition comparison_table (logs : list string)
  : M (list string * string * DataFrame) :=
  mbind (lift (map_result __load_log logs)) (fun loaded =>
  mbind (lift (unzip3 loaded)) (fun '(run_ids, loaded_avg_speeds, cars_paths) =>
  mbind (lift (match cars_paths with
               | c :: _ => Ok c
               | [] => Raise IndexError
               end)) (fun cars_path =>
  mbind (lift (check_same_video cars_path cars_paths)) (fun _ =>
  mbind (lift (match cars_path with
               | Some p => Ok p
               | None => Raise TypeError
               end)) (fun p =>
  mbind (emit (ReadCsv (p ++ "cars.csv")%string)) (fun _ =>
  mbind (lift (match read_csv w (p ++ "cars.csv")%string with
               | Some cars => Ok cars
               | None => Raise FileNotFoundError
               end)) (fun cars =>
  mbind (lift (__generate_aligned_estimations run_ids loaded_avg_speeds cars))
        (fun '(truth, estimations, timestamps) =>
  mbind (lift (DataFrame_of_dict (table_dict truth estimations timestamps))) (fun df =>
  lift (Ok (run_ids, p, dropna df))))))))))).

Definition plot_absolute_error (logs : list string) (save_file_path : option string)
  : M unit :=
  mbind (comparison_table logs) (fun '(run_ids, cars_path, df) =>
  let video_id := last_segment cars_path in
  let fig := {| title := ("Absolute Estimations (" ++ cars_path ++ ")")%string;
                x := "timestamps"; y := Dict.keys df; data := df |} in
  let id := uuid4_hex10 w in
  mbind (match save_file_path with
         | None => lift (Raise TypeError)
         | Some dir =>
             if negb (String.eqb dir "")
             then emit (WriteImage
                          (os_path_join dir (video_id ++ "_" ++ id ++ "_estimations.pdf")%string)
                          fig)
             else emit (Show fig)
         end) (fun _ =>
  let run_id_list := run_ids in
  mbind (lift (map_result (getitem df) run_id_list)) (fun _ =>
  mbind (lift (getitem df "truth")) (fun truth =>
  let df := sub_columns df run_id_list truth in
  let fig := {| title := ("Mean Absolute Error (" ++ cars_path ++ ")")%string;
                x := "timestamps"; y := tl (Dict.keys df); data := df |} in
  mbind (match save_file_path with
         | Some dir =>
             emit (WriteImage
                     (os_path_join dir (video_id ++ "_" ++ id ++ "_mae.pdf")%string) fig)
         | None => emit (Show fig)
         end) (fun _ =>
  match save_file_path with
  | Some dir =>
      let csv_path := os_path_join dir (video_id ++ "_" ++ id ++ "_error.csv")%string in
      mbind (lift (mean_columns df run_id_list)) (fun series =>
      emit (ToCsv csv_path series))
  | None => lift (Ok tt)
  end))))).

(** *** [main] *)

Definition main : M unit :=
  plot_absolute_error ["speed_estimation/logs/xyz.log"] (Some "logs/").

End Model.

(** ** A sample world

    Rational numbers with one NaN stand for the floats, and a decoder of flat
    objects with numeric values stands for [json.loads]; the examples below
    and the instances of the theorems are evaluated on them. *)

Module Sample.

Definition q_sum (xs : list Q) : Q := fold_left Qplus xs 0%Q.

Definition q_values (xs : list (option Q)) : list Q :=
  flat_map (fun v => match v with Some q => [q] | None => [] end) xs.

Definition q_mean (xs : list (option Q)) : option Q :=
  Some (Qred (q_sum (q_values xs) / inject_Z (Z.of_nat (List.length xs)))).

Definition q_sub (a b : option Q) : option Q :=
  match a, b with
  | Some p, Some q => Some (Qred (p - q))
  | _, _ => None
  end.

Definition q_isnan (a : option Q) : bool :=
  match a with
  | Some _ => false
  | None => true
  end.

Definition q_gt (a : option Q) (n : Z) : bool :=
  match a with
  | Some q => negb (Qle_bool q (inject_Z n))
  | None => false
  end.

Definition q_le (a : option Q) (n : Z) : bool :=
  match a with
  | Some q => Qle_bool q (inject_Z n)
  | None => false
  end.

#[export] Instance rational : Float64 := {|
  F := option Q;
  NaN := None;
  isnan := q_isnan;
  fsub := q_sub;
  of_int := fun n => Some (inject_Z n);
  np_mean := q_mean;
  gt_int := q_gt;
  le_int := q_le;
  isnan_NaN := eq_refl
|}.

Definition quote : string := String "034"%char EmptyString.
Definition nl : string := String Re.newline EmptyString.

Definition digit (a : ascii) : option Z :=
  let n := Z.of_nat (nat_of_ascii a) in
  if ((48 <=? n) && (n <=? 57))%Z then Some (n - 48)%Z else None.

(** The digits at the start of [s] read onto [acc], and what follows them *)
Fixpoint digits (s : string) (acc : Z) (n : nat) : Z * nat * string :=
  match s with
  | EmptyString => (acc, n, s)
  | String a s' =>
      match digit a with
      | Some d => digits s' (10 * acc + d)%Z (S n)
      | None => (acc, n, s)
      end
  end.

(** A number [ddd] or [ddd.ddd] at the start of [s] *)
Definition number (s : string) : option Q :=
  let '(i, n, rest) := digits s 0%Z 0 in
  match n with
  | O => None
  | S _ =>
      match rest with
      | String a frac =>
          if Ascii.eqb a "."%char
          then let '(f, m, _) := digits frac 0%Z 0 in
               Some (Qred (inject_Z i + (f # Pos.of_nat (10 ^ m)))%Q)
          else Some (inject_Z i)
      | EmptyString => Some (inject_Z i)
      end
  end.

(** The text after the first [p] in [s] *)
Fixpoint after (p s : string) : option string :=
  if String.prefix p s then Some (PyStr.drop (String.length p) s)
  else match s with
       | EmptyString => None
       | String _ s' => after p s'
       end.

(** The number under the key [k] of the object [s] *)
Definition field (k s : string) : option Q :=
  match after (quote ++ k ++ quote ++ ": ")%string s with
  | Some rest => number rest
  | None => None
  end.

Definition floor (q : Q) : Z := (Qnum q / Z.pos (Qden q))%Z.

(** An object is a text in braces; anything else does not decode. *)
Definition loads (s : string) : option line_dict :=
  match s with
  | String "{"%char _ =>
      if PyStr.contains "}"%char s
      then Some {| frameId := option_map floor (field "frameId" s);
                   avgSpeedTowards := option_map Some (field "avgSpeedTowards" s) |}
      else None
  | _ => None
  end.

(** Two records of a log: one with a speed, one without *)
Definition speed_line (frame speed : string) : string :=
  ("INFO:root:{" ++ quote ++ "frameId" ++ quote ++ ": " ++ frame ++ ", "
     ++ quote ++ "avgSpeedTowards" ++ quote ++ ": " ++ speed ++ "}" ++ nl)%string.

Definition other_line (frame : string) : string :=
  ("INFO:root:{" ++ quote ++ "frameId" ++ quote ++ ": " ++ frame ++ "}" ++ nl)%string.

Definition log_a : list string :=
  [("INFO:root:Video: /data/videoA/" ++ nl)%string;
   other_line "17000";
   speed_line "15000" "41.5";
   ("DEBUG:root:frame skipped" ++ nl)%string;
   speed_line "18000" "42.0";
   speed_line "18001" "50.0"].

(** A log without the line of the video *)
Definition log_b : list string :=
  [speed_line "18000" "42.0"].

(** A log of the same video as [log_a] *)
Definition log_c : list string :=
  [("INFO:root:Video: /data/videoA/" ++ nl)%string;
   speed_line "18000" "43.0"].

(** A log of another video *)
Definition log_d : list string :=
  [("INFO:root:Video: /data/videoB/" ++ nl)%string;
   speed_line "18000" "43.0"].

(** A log of the video without a record of a speed *)
Definition log_e : list string :=
  [("INFO:root:Video: /data/videoA/" ++ nl)%string;
   other_line "17000"].

Definition cars_a : list car :=
  [{| start := Some (350 # 1); end_ := Some (360 # 1); speed := Some (40 # 1) |};
   {| start := Some (300 # 1); end_ := Some (310 # 1); speed := Some (90 # 1) |};
   {| start := Some (355 # 1); end_ := Some (361 # 1); speed := Some (70 # 1) |}].

Definition files (path : string) : option (list string) :=
  if String.eqb path "a.log" then Some log_a
  else if String.eqb path "b.log" then Some log_b
  else if String.eqb path "c.log" then Some log_c
  else if String.eqb path "d.log" then Some log_d
  else if String.eqb path "e.log" then Some log_e
  else None.

Definition tables (path : string) : option (list car) :=
  if String.eqb path "/data/videoA/cars.csv" then Some cars_a else None.

(** The observations [log_a] holds: one on the start of the window from
    second 300 to second 360, one on its end, one past it *)
Definition frame_15000 : line_dict :=
  {| frameId := Some 15000%Z; avgSpeedTowards := Some (Some (83 # 2)) |}.

Definition frame_18000 : line_dict :=
  {| frameId := Some 18000%Z; avgSpeedTowards := Some (Some (42 # 1)) |}.

Definition frame_18001 : line_dict :=
  {| frameId := Some 18001%Z; avgSpeedTowards := Some (Some (50 # 1)) |}.

Definition frames_a : list line_dict := [frame_15000; frame_18000; frame_18001].

(** What the loads of [log_a] and [log_d] return *)
Definition loaded_a : string * list line_dict * option string :=
  ("videoA_depth_0", frames_a, Some "/data/videoA/").

Definition loaded_c : string * list line_dict * option string :=
  ("videoA_depth_0",
   [{| frameId := Some 18000%Z; avgSpeedTowards := Some (Some (43 # 1)) |}],
   Some "/data/videoA/").

Definition loaded_d : string * list line_dict * option string :=
  ("videoB_depth_0",
   [{| frameId := Some 18000%Z; avgSpeedTowards := Some (Some (43 # 1)) |}],
   Some "/data/videoB/").

Definition sample_world : world := {|
  json_loads := loads;
  open_log := files;
  read_csv := tables;
  uuid4_hex10 := "0123456789"
|}.

(** A world where the log that [main] names exists and holds [log_a] *)
Definition files_main (path : string) : option (list string) :=
  if String.eqb path "speed_estimation/logs/xyz.log" then Some log_a else None.

Definition main_world : world := {|
  json_loads := loads;
  open_log := files_main;
  read_csv := tables;
  uuid4_hex10 := "0123456789"
|}.

(** [log_a] without the line of the logger that is no record, and a world
    that holds both *)
Definition log_plain : list string :=
  [("INFO:root:Video: /data/videoA/" ++ nl)%string;
   other_line "17000";
   speed_line "15000" "41.5";
   speed_line "18000" "42.0";
   speed_line "18001" "50.0"].

Definition files_plain (path : string) : option (list string) :=
  if String.eqb path "a.log" then Some log_a
  else if String.eqb path "plain.log" then Some log_plain
  else None.

Definition plain_world : world := {|
  json_loads := loads;
  open_log := files_plain;
  read_csv := tables;
  uuid4_hex10 := "0123456789"
|}.

End Sample.

(** ** The words of the specification *)

Module Spec.

(** The text after the last [c] of [s], all of [s] when it has none *)
Fixpoint after_last (c : ascii) (s : string) : string :=
  match s with
  | EmptyString => EmptyString
  | String a s' =>
      if PyStr.contains c s' then after_last c s'
      else if Ascii.eqb a c then s'
      else s
  end.

(** The last path segment of a path, its trailing slashes stripped *)
Definition last_path_segment (p : string) : string :=
  after_last "/" (PyStr.rstrip "/" p).

(** The depth tag of a run identifier, at the default depth 0 *)
Definition depth_tag : string := "_depth_0".

(** The run identifier of a video path, or of the unknown path *)
Definition run_identifier (cars_path : option string) : string :=
  match cars_path with
  | Some p => (last_path_segment p ++ depth_tag)%string
  | None => ("-1" ++ depth_tag)%string
  end.

(** The starts of the windows: from second 300 in steps of 60, second 1800
    not included *)
Definition window_starts : list Z :=
  map (fun k => (300 + 60 * Z.of_nat k)%Z) (seq 0 25).

(** The end timestamps 360, 420, ..., 1800 *)
Definition window_ends : list Z :=
  [360; 420; 480; 540; 600; 660; 720; 780; 840; 900; 960; 1020; 1080; 1140;
   1200; 1260; 1320; 1380; 1440; 1500; 1560; 1620; 1680; 1740; 1800]%Z.

End Spec.

Section Words.

Context `{Float64}.
Variable w : world.

(** A line that begins with the record marker *)
Definition is_candidate (line : string) : bool :=
  PyStr.startswith line record_marker.

(** The record a candidate line decodes to, the marker stripped *)
Definition decoded (line : string) : option line_dict :=
  json_loads w (PyStr.drop 10 line).

(** A candidate line whose record has the speed key *)
Definition carries_speed (line : string) : bool :=
  is_candidate line &&
  match decoded line with
  | Some d => is_some (avgSpeedTowards d)
  | None => false
  end.

(** A candidate line whose record lacks the speed key *)
Definition lacks_speed (line : string) : bool :=
  is_candidate line &&
  match decoded line with
  | Some d => negb (is_some (avgSpeedTowards d))
  | None => false
  end.

(** A well-formed log: every candidate line decodes *)
Definition well_formed (lines : list string) : Prop :=
  forall line, In line lines -> is_candidate line = true -> decoded line <> None.

(** The observations of a log, line by line *)
Definition observations (lines : list string) : list line_dict :=
  flat_map (fun line =>
              if is_candidate line
              then match decoded line with
                   | Some d => if is_some (avgSpeedTowards d) then [d] else []
                   | None => []
                   end
              else []) lines.

(** The mean of a run in a window, once both columns are there *)
Definition window_mean (estimation : list line_dict) (timeStart timeEnd : Z) : F :=
  mean (map speed_cell
            (filter (frame_selected (timeStart * 50) (timeEnd * 50)) estimation)).

(** The ground-truth means and the means of one run over the windows *)
Definition truth_series (cars : list car) : list F :=
  map (fun s => __avg_speed_for_time_ground_truth cars s (s + 60)%Z) Spec.window_starts.

Definition run_series (estimation : list line_dict) : list F :=
  map (fun s => window_mean estimation s (s + 60)%Z) Spec.window_starts.

(** A window is retained when neither mean is NaN *)
Definition retained (truth means : list F) (i : nat) : bool :=
  negb (match nth_error truth i with Some v => isnan v | None => false end ||
        match nth_error means i with Some v => isnan v | None => false end).

(** The rows of the retained windows *)
Definition retained_rows {A : Type} (truth means : list F) (l : list A) : list A :=
  take_rows (retained truth means) l.

(** The signed difference of a run and the ground truth, window by window:
    the mean of the run minus the mean of the ground truth *)
Definition signed_error (truth means : list F) : list F :=
  map2 fsub means truth.

(** The table of one run after the rows with a NaN are dropped *)
Definition comparison_rows (id : string) (truth means : list F) : DataFrame :=
  [("truth", FloatCol (retained_rows truth means truth));
   (id, FloatCol (retained_rows truth means means));
   ("timestamps", IntCol (retained_rows truth means Spec.window_ends))].

(** The error view of one run: its column holds the signed differences of the
    retained windows *)
Definition error_rows (id : string) (truth means : list F) : DataFrame :=
  [("truth", FloatCol (retained_rows truth means truth));
   (id, FloatCol (retained_rows truth means (signed_error truth means)));
   ("timestamps", IntCol (retained_rows truth means Spec.window_ends))].

(** The names of the three files of a report *)
Definition report_file (dir cars_path suffix : string) : string :=
  os_path_join dir (last_segment cars_path ++ "_" ++ uuid4_hex10 w ++ suffix)%string.

(** What one window adds to the list kept under the run identifier [r]: the
    mean of every run of [ps] filed under [r], in run order; [ps] pairs the
    index of a run with its identifier *)
Definition contributions (loaded_avg_speeds : list (list line_dict))
  (timeStart timeEnd : Z) (r : string) (ps : list (nat * string)) : list F :=
  flat_map (fun p => if String.eqb (snd p) r
                     then [window_mean (nth (fst p) loaded_avg_speeds []) timeStart timeEnd]
                     else []) ps.

(** What the windows of the schedule add under [r], window after window *)
Definition filed_under (loaded_avg_speeds : list (list line_dict))
  (run_ids : list string) (r : string) (ws : list Z) : list F :=
  flat_map (fun s => contributions loaded_avg_speeds s (s + 60)%Z r (enumerate run_ids)) ws.

(** The name of a file of the report, without its directory *)
Definition report_name (cars_path suffix : string) : string :=
  (last_segment cars_path ++ "_" ++ uuid4_hex10 w ++ suffix)%string.

(** The run at index [i] is ready: its frame is in the list of the loaded
    frames and has both columns *)
Definition run_ready (loaded_avg_speeds : list (list line_dict)) (i : nat) : Prop :=
  exists estimation,
    nth_error loaded_avg_speeds i = Some estimation /\
    has_frameId estimation = true /\ has_avgSpeedTowards estimation = true.

End Words.

(** ** Strings *)

Local Close Scope Q_scope.
Local Open Scope nat_scope.

Section Strings.

Variable c : ascii.

Lemma split_not_nil (s : string) : PyStr.split c s <> [].
Proof.
  destruct s as [|a s]; simpl; [discriminate|].
  destruct (Ascii.eqb a c); [discriminate|].
  destruct (PyStr.split c s); discriminate.
Qed.

Lemma split_without (s : string) :
  PyStr.contains c s = false -> PyStr.split c s = [s].
Proof.
  induction s as [|a s IH]; simpl; intros Hc; [reflexivity|].
  apply orb_false_iff in Hc as [Ha Hs].
  rewrite Ha, (IH Hs). reflexivity.
Qed.

Lemma split_with (s : string) :
  PyStr.contains c s = true -> exists h k t, PyStr.split c s = h :: k :: t.
Proof.
  induction s as [|a s IH]; simpl; intros Hc; [discriminate|].
  destruct (Ascii.eqb a c) eqn:Ha.
  - pose proof (split_not_nil s) as Hn.
    destruct (PyStr.split c s) as [|k t]; [contradiction|].
    now exists EmptyString, k, t.
  - simpl in Hc. destruct (IH Hc) as (h & k & t & E). rewrite E.
    now exists (String a h), k, t.
Qed.

Lemma after_last_without (s : string) :
  PyStr.contains c s = false -> Spec.after_last c s = s.
Proof.
  destruct s as [|a s]; simpl; intros Hc; [reflexivity|].
  apply orb_false_iff in Hc as [Ha Hs].
  now rewrite Hs, Ha.
Qed.

(** The last item of a split is the text after the last separator. *)
Lemma last_item_split (s : string) :
  PyStr.last_item (PyStr.split c s) = Spec.after_last c s.
Proof.
  unfold PyStr.last_item.
  induction s as [|a s IH]; [reflexivity|].
  cbn [PyStr.split Spec.after_last].
  destruct (PyStr.contains c s) eqn:Hc.
  - destruct (split_with s Hc) as (h & k & t & E).
    rewrite E in *. destruct (Ascii.eqb a c); exact IH.
  - rewrite (split_without s Hc) in *.
    destruct (Ascii.eqb a c); reflexivity.
Qed.

(** Stripping at the left does not touch the text after the last separator. *)
Lemma after_last_lstrip (s : string) :
  Spec.after_last c (PyStr.lstrip c s) = Spec.after_last c s.
Proof.
  induction s as [|a s IH]; [reflexivity|].
  cbn [PyStr.lstrip]. destruct (Ascii.eqb a c) eqn:Ha; [|reflexivity].
  rewrite IH. cbn [Spec.after_last]. rewrite Ha.
  destruct (PyStr.contains c s) eqn:Hc; [reflexivity|].
  now apply after_last_without.
Qed.

End Strings.

Lemma str_max_depth : PyStr.str 0 = "0".
Proof. reflexivity. Qed.

(** ** The log loader *)

Section Loader.

Context `{Float64}.
Variable w : world.

Lemma last_segment_spec (p : string) : last_segment p = Spec.last_path_segment p.
Proof.
  unfold last_segment, Spec.last_path_segment, PyStr.strip.
  now rewrite last_item_split, after_last_lstrip.
Qed.

(** On a well-formed log the loop keeps the observations, in line order. *)
Lemma read_records_well_formed (lines : list string) :
  well_formed w lines ->
  forall acc, read_records w lines acc = Ok (acc ++ observations w lines).
Proof.
  induction lines as [|line rest IH]; intros Hwf acc.
  - simpl. now rewrite app_nil_r.
  - assert (Hrest : well_formed w rest).
    { intros l Hl. apply Hwf. now right. }
    specialize (Hwf line (or_introl eq_refl)).
    cbn [read_records observations flat_map].
    unfold is_candidate, decoded in *.
    destruct (PyStr.startswith line record_marker); cbn [negb].
    + destruct (json_loads w (PyStr.drop 10 line)) as [d|]; [|now exfalso; apply Hwf].
      destruct (is_some (avgSpeedTowards d)).
      * rewrite (IH Hrest). now rewrite <- app_assoc.
      * now rewrite (IH Hrest).
    + now rewrite (IH Hrest).
Qed.

(** A loop that ends without an exception has met decodable candidates only. *)
Lemma read_records_ok (lines : list string) :
  forall acc r, read_records w lines acc = Ok r -> well_formed w lines.
Proof.
  induction lines as [|line rest IH]; intros acc r Hr l Hl; [contradiction|].
  cbn [read_records] in Hr. destruct Hl as [<-|Hl].
  - unfold is_candidate, decoded. intros Hc. rewrite Hc in Hr. cbn [negb] in Hr.
    destruct (json_loads w (PyStr.drop 10 line)); [discriminate|discriminate Hr].
  - destruct (negb (PyStr.startswith line record_marker)).
    + exact (IH _ _ Hr l Hl).
    + destruct (json_loads w (PyStr.drop 10 line)) as [d|]; [|discriminate Hr].
      destruct (is_some (avgSpeedTowards d)); exact (IH _ _ Hr l Hl).
Qed.

Lemma observations_length (lines : list string) :
  List.length (observations w lines) = List.length (filter (carries_speed w) lines).
Proof.
  induction lines as [|line rest IH]; [reflexivity|].
  cbn [observations flat_map filter]. fold (observations w rest).
  rewrite length_app, IH. unfold carries_speed.
  destruct (is_candidate line); cbn [andb]; [|reflexivity].
  destruct (decoded w line) as [d|]; [|reflexivity].
  destruct (is_some (avgSpeedTowards d)); reflexivity.
Qed.

(** On a well-formed log a candidate either carries the speed or lacks it. *)
Lemma candidates_split (lines : list string) :
  well_formed w lines ->
  List.length (filter is_candidate lines) =
  List.length (filter (carries_speed w) lines) + List.length (filter (lacks_speed w) lines).
Proof.
  induction lines as [|line rest IH]; intros Hwf; [reflexivity|].
  assert (Hrest : well_formed w rest).
  { intros l Hl. apply Hwf. now right. }
  specialize (Hwf line (or_introl eq_refl)). specialize (IH Hrest).
  cbn [filter]. unfold carries_speed, lacks_speed in *.
  destruct (is_candidate line); cbn [andb]; [|exact IH].
  destruct (decoded w line) as [d|]; [|now exfalso; apply Hwf].
  destruct (is_some (avgSpeedTowards d)); cbn [negb List.length]; lia.
Qed.

(** What [__load_log] returns on a file that exists and is well formed *)
Lemma load_log_well_formed (log_path : string) (lines : list string) :
  open_log w log_path = Some lines ->
  well_formed w lines ->
  __load_log w log_path =
  Ok (Spec.run_identifier (first_line_path lines), observations w lines,
      first_line_path lines).
Proof.
  intros Hopen Hwf. unfold __load_log. rewrite Hopen.
  rewrite (read_records_well_formed lines Hwf). cbn [rbind app].
  unfold Spec.run_identifier, Spec.depth_tag.
  destruct (first_line_path lines) as [p|]; [|reflexivity].
  now rewrite last_segment_spec.
Qed.

(** What a successful [__load_log] has read *)
Lemma load_log_ok (log_path : string) (r : string * list line_dict * option string) :
  __load_log w log_path = Ok r ->
  exists lines,
    open_log w log_path = Some lines /\ well_formed w lines /\
    r = (Spec.run_identifier (first_line_path lines), observations w lines,
         first_line_path lines).
Proof.
  intros Hload. pose proof Hload as Hr. unfold __load_log in Hr.
  destruct (open_log w log_path) as [lines|] eqn:Hopen; [|discriminate].
  destruct (read_records w lines []) as [obs|] eqn:Hrec; [|discriminate].
  pose proof (read_records_ok _ _ _ Hrec) as Hwf.
  exists lines. repeat split; trivial.
  rewrite (load_log_well_formed _ _ Hopen Hwf) in Hload. congruence.
Qed.

(** C7: for a well-formed log, as many observations are loaded as there are
    lines that begin with the record marker and decode to a record with the
    speed key; the candidates without the key are dropped one for one, and the
    other lines add nothing. *)
Theorem load_log_observation_count (log_path : string) (lines : list string) :
  open_log w log_path = Some lines ->
  well_formed w lines ->
  exists id estimation cars_path,
    __load_log w log_path = Ok (id, estimation, cars_path) /\
    estimation = observations w lines /\
    List.length estimation = List.length (filter (carries_speed w) lines) /\
    List.length (filter is_candidate lines) =
    List.length estimation + List.length (filter (lacks_speed w) lines).
Proof.
  intros Hopen Hwf.
  exists (Spec.run_identifier (first_line_path lines)), (observations w lines),
         (first_line_path lines).
  split; [now apply load_log_well_formed|].
  split; [reflexivity|].
  split; [apply observations_length|].
  rewrite observations_length. now apply candidates_split.
Qed.

(** C9: the run identifier of a loaded log is the last path segment of the
    video path found on the first line, trailing slashes stripped, followed by
    the depth tag [_depth_0]; when the first line gives no video path it is
    [-1] followed by the depth tag. *)
Theorem load_log_run_identifier
  (log_path : string) (lines : list string)
  (id : string) (estimation : list line_dict) (cars_path : option string) :
  open_log w log_path = Some lines ->
  __load_log w log_path = Ok (id, estimation, cars_path) ->
  cars_path = first_line_path lines /\
  match cars_path with
  | Some p => id = (Spec.last_path_segment p ++ "_depth_0")%string
  | None => id = "-1_depth_0"
  end.
Proof.
  intros Hopen Hload.
  destruct (load_log_ok _ _ Hload) as (lines' & Hopen' & _ & E).
  rewrite Hopen in Hopen'. injection Hopen' as <-.
  injection E as -> _ ->. split; [reflexivity|].
  now destruct (first_line_path lines).
Qed.

End Loader.

(** ** The window aggregators *)

Section Aggregators.

Context `{Float64}.

(** The mean of nothing is NaN, not zero. *)
Lemma mean_nil : mean [] = NaN.
Proof. reflexivity. Qed.

Lemma mean_isnan_nil : isnan (mean []) = true.
Proof. rewrite mean_nil. apply isnan_NaN. Qed.

(** With both columns in the frame the aggregator returns the window mean. *)
Lemma avg_estimation_ok (estimation : list line_dict) (timeStart timeEnd : Z) :
  has_frameId estimation = true ->
  has_avgSpeedTowards estimation = true ->
  __avg_speed_for_time_estimation estimation timeStart timeEnd =
  Ok (window_mean estimation timeStart timeEnd).
Proof.
  intros Hf Hs. unfold __avg_speed_for_time_estimation. now rewrite Hf, Hs.
Qed.

(** Without the column of the frame ids the aggregator raises. *)
Lemma avg_estimation_no_frameId (estimation : list line_dict) (timeStart timeEnd : Z) :
  has_frameId estimation = false ->
  __avg_speed_for_time_estimation estimation timeStart timeEnd = Raise (KeyError "frameId").
Proof.
  intros Hf. unfold __avg_speed_for_time_estimation. now rewrite Hf.
Qed.

Lemma avg_estimation_no_speed (estimation : list line_dict) (timeStart timeEnd : Z) :
  has_frameId estimation = true ->
  has_avgSpeedTowards estimation = false ->
  __avg_speed_for_time_estimation estimation timeStart timeEnd =
  Raise (KeyError "avgSpeedTowards").
Proof.
  intros Hf Hs. unfold __avg_speed_for_time_estimation. now rewrite Hf, Hs.
Qed.

(** The records loaded from a log all have the speed, so the frame of a
    loaded log has the speed column as soon as it has the frame ids. *)
Lemma has_frameId_speed (estimation : list line_dict) :
  Forall (fun d => is_some (avgSpeedTowards d) = true) estimation ->
  has_frameId estimation = true ->
  has_avgSpeedTowards estimation = true.
Proof.
  intros Hall Hf. unfold has_frameId in Hf. apply existsb_exists in Hf as (d & Hd & _).
  apply existsb_exists. exists d. split; [exact Hd|].
  rewrite Forall_forall in Hall. now apply Hall.
Qed.

Lemma frame_selected_iff (lo hi : Z) (d : line_dict) :
  frame_selected lo hi d = true <->
  exists f, frameId d = Some f /\ (lo < f <= hi)%Z.
Proof.
  unfold frame_selected. destruct (frameId d) as [f|].
  - rewrite andb_true_iff, Z.ltb_lt, Z.leb_le. split.
    + intros [H1 H2]. exists f. now repeat split.
    + intros (g & [= <-] & H1 & H2). now split.
  - split; [discriminate|]. now intros (f & Hf & _).
Qed.

(** C1: the estimation aggregator scales the bounds of the window by 50 and
    averages the observations whose frame id is strictly above the scaled
    start and at most the scaled end, so an observation at [timeStart * 50] is
    left out of the window and one at [timeEnd * 50] is in it; the
    ground-truth aggregator averages the records that start strictly after
    [timeStart] and end at [timeEnd] or before. *)
Theorem window_bounds
  (estimation : list line_dict) (cars_truth : list car)
  (timeStart timeEnd : Z) (o : line_dict) (f : Z) :
  In o estimation ->
  frameId o = Some f ->
  is_some (avgSpeedTowards o) = true ->
  (timeStart < timeEnd)%Z ->
  let selected := filter (frame_selected (timeStart * 50) (timeEnd * 50)) estimation in
  let cars_to_avg := filter (truth_selected timeStart timeEnd) cars_truth in
  __avg_speed_for_time_estimation estimation timeStart timeEnd =
    Ok (mean (map speed_cell selected)) /\
  (forall d, In d selected <->
             In d estimation /\
             exists g, frameId d = Some g /\ (timeStart * 50 < g <= timeEnd * 50)%Z) /\
  (f = (timeStart * 50)%Z -> ~ In o selected) /\
  (f = (timeEnd * 50)%Z -> In o selected) /\
  __avg_speed_for_time_ground_truth cars_truth timeStart timeEnd =
    mean (map speed cars_to_avg) /\
  (forall r, In r cars_to_avg <->
             In r cars_truth /\
             gt_int (start r) timeStart = true /\ le_int (end_ r) timeEnd = true).
Proof.
  intros Hin Hf Hs Hlt selected cars_to_avg.
  assert (Hsel : forall d, In d selected <->
             In d estimation /\
             exists g, frameId d = Some g /\ (timeStart * 50 < g <= timeEnd * 50)%Z).
  { intros d. unfold selected. rewrite filter_In. now rewrite frame_selected_iff. }
  split.
  { apply avg_estimation_ok.
    - apply existsb_exists. exists o. split; [exact Hin|]. now rewrite Hf.
    - apply existsb_exists. now exists o. }
  split; [exact Hsel|].
  split.
  { intros -> Ho. apply Hsel in Ho as (_ & g & Hg & Hlo & _).
    rewrite Hf in Hg. injection Hg as <-. lia. }
  split.
  { intros ->. apply Hsel. split; [exact Hin|].
    exists (timeEnd * 50)%Z. split; [exact Hf|]. lia. }
  split; [reflexivity|].
  intros r. unfold cars_to_avg. rewrite filter_In. unfold truth_selected.
  now rewrite andb_true_iff.
Qed.

End Aggregators.

(** ** The alignment engine *)

Lemma range_window_starts : range 300 (30 * 60) 60 = Spec.window_starts.
Proof. reflexivity. Qed.

Lemma window_ends_of_starts :
  map (fun s => (s + 60)%Z) Spec.window_starts = Spec.window_ends.
Proof. reflexivity. Qed.

Section Engine.

Context `{Float64}.

Variable cars : list car.

(** *** One run *)

Section OneRun.

Variable id : string.
Variable estimation : list line_dict.

Lemma window_one_run (truth l : list F) (timestamps : list Z) (s : Z) :
  has_frameId estimation = true ->
  has_avgSpeedTowards estimation = true ->
  window [id] [estimation] cars (truth, [(id, l)], timestamps) s =
  Ok (truth ++ [__avg_speed_for_time_ground_truth cars s (s + 60)%Z],
      [(id, l ++ [window_mean estimation s (s + 60)%Z])],
      timestamps ++ [(s + 60)%Z]).
Proof.
  intros Hf Hs. unfold window, enumerate. cbn [List.length seq combine fold_result].
  unfold append_estimation. cbn [Dict.get nth_error]. rewrite String.eqb_refl.
  rewrite (avg_estimation_ok _ _ _ Hf Hs). cbn [rbind Dict.set].
  now rewrite String.eqb_refl.
Qed.

Lemma fold_window_one_run (ws : list Z) :
  has_frameId estimation = true ->
  has_avgSpeedTowards estimation = true ->
  forall (truth l : list F) (timestamps : list Z),
    fold_result (window [id] [estimation] cars) ws (truth, [(id, l)], timestamps) =
    Ok (truth ++ map (fun s => __avg_speed_for_time_ground_truth cars s (s + 60)%Z) ws,
        [(id, l ++ map (fun s => window_mean estimation s (s + 60)%Z) ws)],
        timestamps ++ map (fun s => (s + 60)%Z) ws).
Proof.
  intros Hf Hs. induction ws as [|s ws IH]; intros truth l timestamps.
  - cbn [fold_result map]. now rewrite !app_nil_r.
  - cbn [fold_result map]. rewrite (window_one_run _ _ _ _ Hf Hs). cbn [rbind].
    rewrite IH. now rewrite <- !app_assoc.
Qed.

(** The engine on one run whose frame has both columns: the means of the
    ground truth, the means of the run and the ends of the 25 windows. *)
Lemma engine_one_run :
  has_frameId estimation = true ->
  has_avgSpeedTowards estimation = true ->
  __generate_aligned_estimations [id] [estimation] cars =
  Ok (truth_series cars, [(id, run_series estimation)], Spec.window_ends).
Proof.
  intros Hf Hs. unfold __generate_aligned_estimations.
  rewrite range_window_starts.
  change (Dict.of_keys [id] (@nil F)) with [(id, @nil F)].
  rewrite (fold_window_one_run _ Hf Hs). cbn [app].
  now rewrite window_ends_of_starts.
Qed.

(** The engine on one run whose frame lacks a column: the first window
    raises. *)
Lemma engine_one_run_no_frameId :
  has_frameId estimation = false ->
  __generate_aligned_estimations [id] [estimation] cars = Raise (KeyError "frameId").
Proof.
  intros Hf. unfold __generate_aligned_estimations.
  rewrite range_window_starts.
  change (Dict.of_keys [id] (@nil F)) with [(id, @nil F)].
  change Spec.window_starts with (300%Z :: tl Spec.window_starts).
  cbn [fold_result]. unfold window, enumerate.
  cbn [List.length seq combine fold_result].
  unfold append_estimation. cbn [Dict.get nth_error]. rewrite String.eqb_refl.
  now rewrite (avg_estimation_no_frameId _ _ _ Hf).
Qed.

Lemma engine_one_run_no_speed :
  has_frameId estimation = true ->
  has_avgSpeedTowards estimation = false ->
  __generate_aligned_estimations [id] [estimation] cars =
  Raise (KeyError "avgSpeedTowards").
Proof.
  intros Hf Hs. unfold __generate_aligned_estimations.
  rewrite range_window_starts.
  change (Dict.of_keys [id] (@nil F)) with [(id, @nil F)].
  change Spec.window_starts with (300%Z :: tl Spec.window_starts).
  cbn [fold_result]. unfold window, enumerate.
  cbn [List.length seq combine fold_result].
  unfold append_estimation. cbn [Dict.get nth_error]. rewrite String.eqb_refl.
  now rewrite (avg_estimation_no_speed _ _ _ Hf Hs).
Qed.

End OneRun.

(** *** Several runs under one identifier *)

Section SameId.

Variable id : string.
Variable loaded_avg_speeds : list (list line_dict).

(** Every run appends to the one list the dictionary holds. *)
Lemma fold_append_same_id (s e : Z) (ps : list (nat * string)) :
  (forall p, In p ps -> snd p = id) ->
  forall (l : list F) (d : Dict.t (list F)),
    fold_result (append_estimation loaded_avg_speeds s e) ps [(id, l)] = Ok d ->
    exists l', d = [(id, l')] /\ List.length l' = List.length l + List.length ps.
Proof.
  induction ps as [|[idx k] ps IH]; intros Hid l d Hd.
  - cbn [fold_result] in Hd. injection Hd as <-. exists l. split; [reflexivity|].
    cbn [List.length]. lia.
  - assert (k = id) as -> by exact (Hid (idx, k) (or_introl eq_refl)).
    cbn [fold_result] in Hd. unfold append_estimation at 1 in Hd.
    cbn [Dict.get] in Hd. rewrite String.eqb_refl in Hd.
    destruct (nth_error loaded_avg_speeds idx) as [est|]; [|discriminate].
    destruct (__avg_speed_for_time_estimation est s e) as [v|]; [|discriminate].
    cbn [rbind Dict.set] in Hd. rewrite String.eqb_refl in Hd.
    apply IH in Hd as (l' & -> & Hl').
    + exists l'. split; [reflexivity|].
      rewrite Hl', length_app. cbn [List.length]. lia.
    + intros p Hp. apply Hid. now right.
Qed.

Lemma fold_window_same_id (run_ids : list string) (ws : list Z) :
  (forall k, In k run_ids -> k = id) ->
  forall (truth l : list F) (timestamps : list Z) (r : aligned),
    fold_result (window run_ids loaded_avg_speeds cars) ws (truth, [(id, l)], timestamps) =
      Ok r ->
    exists truth' l' timestamps',
      r = (truth', [(id, l')], timestamps') /\
      List.length truth' = List.length truth + List.length ws /\
      List.length l' = List.length l + List.length ws * List.length run_ids /\
      List.length timestamps' = List.length timestamps + List.length ws.
Proof.
  intros Hid. induction ws as [|s ws IH]; intros truth l timestamps r Hr.
  - cbn [fold_result] in Hr. injection Hr as <-. exists truth, l, timestamps.
    cbn [List.length]. repeat split; lia.
  - cbn [fold_result] in Hr. unfold window at 1 in Hr.
    destruct (fold_result (append_estimation loaded_avg_speeds s (s + 60)%Z)
                          (enumerate run_ids) [(id, l)]) as [d|] eqn:Hd; [|discriminate].
    apply fold_append_same_id in Hd as (l1 & -> & Hl1).
    + cbn [rbind] in Hr. apply IH in Hr as (truth' & l' & timestamps' & -> & Ht & Hl & Hts).
      exists truth', l', timestamps'. split; [reflexivity|].
      rewrite length_app in Ht, Hts. cbn [List.length] in *.
      unfold enumerate in Hl1. rewrite length_combine, length_seq, Nat.min_id in Hl1.
      repeat split; lia.
    + intros [idx k] Hp. apply Hid. unfold enumerate in Hp.
      now apply in_combine_r in Hp.
Qed.

Lemma of_keys_same_id (run_ids : list string) :
  run_ids <> [] ->
  (forall k, In k run_ids -> k = id) ->
  Dict.of_keys run_ids (@nil F) = [(id, [])].
Proof.
  destruct run_ids as [|k ks]; [contradiction|]. intros _ Hid.
  assert (k = id) as -> by (apply Hid; now left).
  unfold Dict.of_keys. cbn [fold_left Dict.set].
  assert (Hks : forall k, In k ks -> k = id) by (intros k Hk; apply Hid; now right).
  clear Hid. induction ks as [|k ks IH]; [reflexivity|].
  assert (k = id) as -> by (apply Hks; now left).
  cbn [fold_left Dict.set]. rewrite String.eqb_refl.
  apply IH. intros k Hk. apply Hks. now right.
Qed.

(** With [n] runs under one identifier the dictionary of the estimations has
    one list, and the engine leaves [25 * n] values in it next to 25 means of
    the ground truth and 25 timestamps. *)
Lemma engine_same_id (run_ids : list string) (r : aligned) :
  run_ids <> [] ->
  (forall k, In k run_ids -> k = id) ->
  __generate_aligned_estimations run_ids loaded_avg_speeds cars = Ok r ->
  exists truth l timestamps,
    r = (truth, [(id, l)], timestamps) /\
    List.length truth = 25 /\
    List.length l = 25 * List.length run_ids /\
    List.length timestamps = 25.
Proof.
  intros Hne Hid Hr. unfold __generate_aligned_estimations in Hr.
  rewrite (of_keys_same_id _ Hne Hid), range_window_starts in Hr.
  apply (fold_window_same_id _ _ Hid) in Hr as (truth & l & timestamps & -> & Ht & Hl & Hts).
  exists truth, l, timestamps. split; [reflexivity|].
  change (List.length Spec.window_starts) with 25 in *. cbn [List.length] in *.
  repeat split; lia.
Qed.

End SameId.

End Engine.

(** ** Run identifiers and column names *)

Lemma length_append (s t : string) :
  String.length (s ++ t) = String.length s + String.length t.
Proof. induction s as [|a s IH]; cbn; [reflexivity|now rewrite IH]. Qed.

Lemma depth_tag_not_truth (x : string) : (x ++ "_depth_0")%string <> "truth".
Proof.
  intros E. apply (f_equal String.length) in E.
  rewrite length_append in E. cbn [String.length] in E. lia.
Qed.

Lemma depth_tag_not_timestamps (x : string) : (x ++ "_depth_0")%string <> "timestamps".
Proof.
  intros E. pose proof (f_equal String.length E) as L.
  rewrite length_append in L. cbn [String.length] in L.
  destruct x as [|a [|b [|c x]]]; cbn [String.length] in L; try lia.
  cbn [String.append] in E. discriminate E.
Qed.

Lemma run_identifier_tagged (cars_path : option string) :
  exists x, Spec.run_identifier cars_path = (x ++ "_depth_0")%string.
Proof.
  destruct cars_path as [p|].
  - now exists (Spec.last_path_segment p).
  - now exists "-1".
Qed.

Lemma run_identifier_columns (cars_path : option string) :
  let id := Spec.run_identifier cars_path in
  String.eqb "truth" id = false /\ String.eqb id "timestamps" = false /\
  String.eqb "timestamps" id = false.
Proof.
  destruct (run_identifier_tagged cars_path) as (x & ->). cbn zeta.
  repeat split; apply String.eqb_neq; intros E.
  - now apply (depth_tag_not_truth x).
  - now apply (depth_tag_not_timestamps x).
  - now apply (depth_tag_not_timestamps x).
Qed.

(** ** Data frames *)

Section Frames.

Context `{Float64}.

Lemma take_rows_ext {A : Type} (keep keep' : nat -> bool) (l : list A) :
  (forall i, keep i = keep' i) -> take_rows keep l = take_rows keep' l.
Proof.
  intros E. unfold take_rows. f_equal. apply filter_ext. intros [i a]. apply E.
Qed.

Lemma take_from_map2 {A B C : Type} (f : A -> B -> C) (keep : nat -> bool) (a : list A) :
  forall (b : list B) (k : nat),
    map snd (filter (fun p => keep (fst p))
                    (combine (seq k (List.length (map2 f a b))) (map2 f a b))) =
    map2 f
      (map snd (filter (fun p => keep (fst p)) (combine (seq k (List.length a)) a)))
      (map snd (filter (fun p => keep (fst p)) (combine (seq k (List.length b)) b))).
Proof.
  induction a as [|x a IH]; intros b k; [reflexivity|].
  destruct b as [|y b].
  - cbn [map2 List.length seq combine filter map].
    match goal with |- _ = map2 f ?l [] => now destruct l end.
  - cbn [map2 List.length seq combine filter fst].
    destruct (keep k); cbn [map snd map2]; now rewrite IH.
Qed.

(** The rows kept of a row-wise operation are the operation on the rows kept. *)
Lemma take_rows_map2 {A B C : Type} (f : A -> B -> C) (keep : nat -> bool)
  (a : list A) (b : list B) :
  take_rows keep (map2 f a b) = map2 f (take_rows keep a) (take_rows keep b).
Proof. apply take_from_map2. Qed.

Lemma in_combine_seq {A : Type} (l : list A) :
  forall (k i : nat) (a : A),
    In (i, a) (combine (seq k (List.length l)) l) ->
    exists j, i = k + j /\ nth_error l j = Some a.
Proof.
  induction l as [|x l IH]; intros k i a Hin; [contradiction|].
  cbn [List.length seq combine] in Hin. destruct Hin as [E|Hin].
  - injection E as <- <-. exists 0. split; [lia|reflexivity].
  - apply IH in Hin as (j & -> & Hj). exists (S j). split; [lia|exact Hj].
Qed.

(** A row that is kept is a row of the frame, and the test kept it. *)
Lemma take_rows_In {A : Type} (keep : nat -> bool) (l : list A) (a : A) :
  In a (take_rows keep l) -> exists i, keep i = true /\ nth_error l i = Some a.
Proof.
  unfold take_rows, enumerate. intros Ha.
  apply in_map_iff in Ha as ([i b] & E & Hin). cbn in E. subst b.
  apply filter_In in Hin as [Hin Hk]. cbn in Hk.
  apply in_combine_seq in Hin as (j & -> & Hj). now exists j.
Qed.

(** [dropna] leaves no NaN in the table. *)
Lemma dropna_no_nan (df : DataFrame) (k : string) (xs : list F) (v : F) :
  In (k, FloatCol xs) (dropna df) -> In v xs -> isnan v = false.
Proof.
  unfold dropna. intros Hcol Hv.
  apply in_map_iff in Hcol as ([k0 c0] & E & Hin0). cbn [fst snd] in E.
  injection E as <- E. destruct c0 as [xs0|ns0]; [|discriminate].
  cbn [col_take] in E. injection E as <-.
  apply take_rows_In in Hv as (i & Hkeep & Hi).
  apply negb_true_iff in Hkeep. unfold row_has_na in Hkeep.
  destruct (isnan v) eqn:Hn; [|reflexivity].
  assert (Hex : existsb (fun kc => isna_at (snd kc) i) df = true).
  { apply existsb_exists. exists (k0, FloatCol xs0). split; [exact Hin0|].
    cbn [snd isna_at]. now rewrite Hi. }
  congruence.
Qed.

(** The table of one run after [dropna]: the rows of the retained windows *)
Lemma dropna_one_run (id : string) (truth means : list F) (timestamps : list Z) :
  dropna [("truth", FloatCol truth); (id, FloatCol means); ("timestamps", IntCol timestamps)] =
  [("truth", FloatCol (retained_rows truth means truth));
   (id, FloatCol (retained_rows truth means means));
   ("timestamps", IntCol (retained_rows truth means timestamps))].
Proof.
  unfold dropna, retained_rows. cbn [map fst snd col_take].
  assert (E : forall i,
             negb (row_has_na [("truth", FloatCol truth); (id, FloatCol means);
                               ("timestamps", IntCol timestamps)] i) =
             retained truth means i).
  { intros i. unfold row_has_na, retained. cbn [existsb snd isna_at].
    now rewrite !orb_false_r. }
  now rewrite !(take_rows_ext _ _ _ E).
Qed.

End Frames.

(** ** The report builder *)

(** Closes a goal that asks for the trace and the exception of a computation
    that has raised before anything but the ground truth was touched. *)
Ltac raised :=
  eexists _, _; split;
  [reflexivity|first [left; reflexivity|right; eexists; reflexivity]].

Section Report.

Context `{Float64}.
Variable w : world.

Lemma mbind_lift_ok {A B : Type} (a : A) (k : A -> M B) :
  mbind (lift (Ok a)) k = k a.
Proof. unfold mbind, lift. now destruct (k a). Qed.

Lemma mbind_lift_raise {A B : Type} (e : exn) (k : A -> M B) :
  mbind (lift (Raise e)) k = ([], Raise e).
Proof. reflexivity. Qed.

Lemma path_eqb_refl (c : option string) : path_eqb c c = true.
Proof. destruct c; [apply String.eqb_refl|reflexivity]. Qed.

Lemma path_eqb_eq (a b : option string) : path_eqb a b = true -> a = b.
Proof.
  destruct a, b; cbn; try discriminate; [|reflexivity].
  intros E. apply String.eqb_eq in E. now subst.
Qed.

(** The table of one run: the three columns of the retained windows *)
Lemma table_dict_one_run (cars_path : option string) (truth means : list F)
  (timestamps : list Z) :
  table_dict truth [(Spec.run_identifier cars_path, means)] timestamps =
  [("truth", FloatCol truth); (Spec.run_identifier cars_path, FloatCol means);
   ("timestamps", IntCol timestamps)].
Proof.
  destruct (run_identifier_columns cars_path) as (E1 & E2 & _).
  unfold table_dict, Dict.update. cbn [map fst snd fold_left Dict.set].
  rewrite E1. cbn [Dict.set]. rewrite E2. reflexivity.
Qed.

Lemma mbind_emit {B : Type} (e : event) (k : unit -> M B) :
  mbind (emit e) k = (e :: fst (k tt), snd (k tt)).
Proof. unfold mbind, emit. now destruct (k tt). Qed.

(** The records a load keeps all have the speed. *)
Lemma observations_speed (lines : list string) :
  Forall (fun d => is_some (avgSpeedTowards d) = true) (observations w lines).
Proof.
  unfold observations. apply Forall_flat_map. apply Forall_forall. intros line _.
  destruct (is_candidate line); [|constructor].
  destruct (decoded w line) as [d|]; [|constructor].
  destruct (is_some (avgSpeedTowards d)) eqn:E; constructor; [exact E|constructor].
Qed.

Lemma series_lengths (cars : list car) (estimation : list line_dict) :
  List.length (truth_series cars) = 25 /\ List.length (run_series estimation) = 25.
Proof. unfold truth_series, run_series. now rewrite !length_map. Qed.

Lemma comparison_table_one_run
  (log : string) (id : string) (estimation : list line_dict) (cars_path : string)
  (cars : list car) :
  __load_log w log = Ok (id, estimation, Some cars_path) ->
  has_frameId estimation = true ->
  read_csv w (cars_path ++ "cars.csv")%string = Some cars ->
  comparison_table w [log] =
  ([ReadCsv (cars_path ++ "cars.csv")%string],
   Ok ([id], cars_path,
       comparison_rows id (truth_series cars) (run_series estimation))).
Proof.
  intros Hload Hf Hcsv.
  destruct (load_log_ok _ _ _ Hload) as (lines & Hopen & Hwf & E).
  injection E as -> -> Hp.
  pose proof (has_frameId_speed _ (observations_speed lines) Hf) as Hs.
  unfold comparison_table. cbn [map_result]. rewrite Hload. cbn [rbind].
  rewrite mbind_lift_ok. cbn [unzip3 map fst snd]. rewrite mbind_lift_ok.
  rewrite mbind_lift_ok. cbn [check_same_video]. rewrite path_eqb_refl. cbn [negb].
  rewrite mbind_lift_ok. rewrite mbind_lift_ok. rewrite mbind_emit.
  rewrite Hcsv, mbind_lift_ok.
  rewrite (engine_one_run _ _ _ Hf Hs), mbind_lift_ok.
  rewrite table_dict_one_run.
  destruct (series_lengths cars (observations w lines)) as [Lt Lr].
  unfold DataFrame_of_dict. cbn [forallb snd col_length].
  rewrite Lt, Lr. change (List.length Spec.window_ends) with 25.
  cbn [Nat.eqb andb]. rewrite mbind_lift_ok. cbn [lift fst snd].
  now rewrite dropna_one_run.
Qed.

Lemma mbind_ok {A B : Type} (t : list event) (a : A) (k : A -> M B) :
  mbind (t, Ok a) k = (t ++ fst (k a), snd (k a)).
Proof. unfold mbind. now destruct (k a). Qed.

Lemma mbind_raise {A B : Type} (t : list event) (e : exn) (k : A -> M B) :
  mbind (t, Raise e) k = (t, Raise e).
Proof. reflexivity. Qed.

(** The subtraction turns the table of one run into its error view. *)
Lemma sub_columns_one_run (id : string) (truth means : list F) :
  String.eqb "truth" id = false ->
  String.eqb "timestamps" id = false ->
  sub_columns (comparison_rows id truth means) [id]
              (FloatCol (retained_rows truth means truth)) =
  error_rows id truth means.
Proof.
  intros E1 E3. unfold sub_columns, comparison_rows, error_rows, among.
  cbn [map fst snd existsb]. rewrite E1, E3, String.eqb_refl. cbn [orb col_sub as_float].
  unfold retained_rows, signed_error. now rewrite take_rows_map2.
Qed.

(** The first chart goes to a file when a directory is named and to the
    screen when the directory is the empty string. *)
Lemma plot_one_run
  (log : string) (id : string) (estimation : list line_dict) (cars_path : string)
  (cars : list car) (dir : string) :
  __load_log w log = Ok (id, estimation, Some cars_path) ->
  has_frameId estimation = true ->
  read_csv w (cars_path ++ "cars.csv")%string = Some cars ->
  let truth := truth_series cars in
  let means := run_series estimation in
  let fig1 := {| title := ("Absolute Estimations (" ++ cars_path ++ ")")%string;
                 x := "timestamps"; y := ["truth"; id; "timestamps"];
                 data := comparison_rows id truth means |} in
  let fig2 := {| title := ("Mean Absolute Error (" ++ cars_path ++ ")")%string;
                 x := "timestamps"; y := [id; "timestamps"];
                 data := error_rows id truth means |} in
  plot_absolute_error w [log] (Some dir) =
  ([ReadCsv (cars_path ++ "cars.csv")%string;
    if String.eqb dir "" then Show fig1
    else WriteImage (report_file w dir cars_path "_estimations.pdf") fig1;
    WriteImage (report_file w dir cars_path "_mae.pdf") fig2;
    ToCsv (report_file w dir cars_path "_error.csv")
          [(id, mean (retained_rows truth means (signed_error truth means)))]],
   Ok tt).
Proof.
  intros Hload Hf Hcsv truth means fig1 fig2.
  pose proof (comparison_table_one_run _ _ _ _ _ Hload Hf Hcsv) as Htable.
  destruct (load_log_ok _ _ _ Hload) as (lines & _ & _ & E).
  injection E as Hid _ _.
  destruct (run_identifier_columns (first_line_path lines)) as (E1 & E2 & E3).
  rewrite <- Hid in E1, E2, E3.
  unfold plot_absolute_error. rewrite Htable, mbind_ok.
  fold truth means.
  assert (Hget : getitem (comparison_rows id truth means) id =
                 Ok (FloatCol (retained_rows truth means means))).
  { unfold getitem, comparison_rows. cbn [Dict.get]. rewrite E1, String.eqb_refl. reflexivity. }
  assert (Htruth : getitem (comparison_rows id truth means) "truth" =
                   Ok (FloatCol (retained_rows truth means truth))).
  { reflexivity. }
  assert (Herr : getitem (error_rows id truth means) id =
                 Ok (FloatCol (retained_rows truth means (signed_error truth means)))).
  { unfold getitem, error_rows. cbn [Dict.get]. rewrite E1, String.eqb_refl. reflexivity. }
  cbn [map_result]. rewrite Hget. cbn [rbind].
  unfold report_file.
  destruct (String.eqb dir ""); cbn [negb];
    rewrite mbind_emit, !mbind_lift_ok, Htruth, !mbind_lift_ok,
      (sub_columns_one_run id truth means E1 E3), mbind_emit;
    unfold mean_columns; cbn [map_result]; rewrite Herr; cbn [rbind as_float];
    rewrite !mbind_lift_ok; reflexivity.
Qed.

(** What the loads of several logs return *)
Lemma map_result_load (logs : list string)
  (loaded : list (string * list line_dict * option string)) :
  map_result (__load_log w) logs = Ok loaded ->
  List.length loaded = List.length logs /\
  Forall (fun r => fst (fst r) = Spec.run_identifier (snd r)) loaded.
Proof.
  revert loaded. induction logs as [|log logs IH]; intros loaded Hl.
  - injection Hl as <-. split; constructor.
  - cbn [map_result] in Hl.
    destruct (__load_log w log) as [r|] eqn:Hr; [|discriminate].
    cbn [rbind] in Hl.
    destruct (map_result (__load_log w) logs) as [rs|]; [|discriminate].
    cbn [rbind] in Hl. injection Hl as <-.
    destruct (IH rs eq_refl) as [Hlen Hids]. split.
    + cbn [List.length]. lia.
    + constructor; [|exact Hids].
      destruct (load_log_ok _ _ _ Hr) as (lines & _ & _ & ->). reflexivity.
Qed.

Lemma check_same_video_ok (c : option string) (cs : list (option string)) :
  check_same_video c cs = Ok tt -> forall c', In c' cs -> c' = c.
Proof.
  induction cs as [|c0 cs IH]; intros Hc c' Hin; [contradiction|].
  cbn [check_same_video] in Hc.
  destruct (path_eqb c0 c) eqn:E; cbn [negb] in Hc; [|discriminate].
  destruct Hin as [<-|Hin]; [now apply path_eqb_eq|now apply IH].
Qed.

Lemma check_same_video_differs (c : option string) (cs : list (option string)) :
  (exists c', In c' cs /\ c' <> c) ->
  check_same_video c cs = Raise (Exception same_video_message).
Proof.
  induction cs as [|c0 cs IH]; intros (c' & Hin & Hne); [contradiction|].
  cbn [check_same_video]. destruct (path_eqb c0 c) eqn:E; cbn [negb]; [|reflexivity].
  apply path_eqb_eq in E. subst c0.
  destruct Hin as [<-|Hin]; [contradiction|].
  apply IH. now exists c'.
Qed.

(** Several logs never get to a table: their loads fail, or their videos
    differ, or the video is unknown, or the ground truth is missing, or a
    frame lacks a column, or, when all that went well, the runs share one
    identifier and the lists of the table differ in length. *)
Lemma comparison_table_several (logs : list string) :
  2 <= List.length logs ->
  exists t e,
    comparison_table w logs = (t, Raise e) /\
    (t = [] \/ exists path, t = [ReadCsv path]).
Proof.
  intros Hn. unfold comparison_table.
  destruct (map_result (__load_log w) logs) as [loaded|e] eqn:Hl;
    [|rewrite mbind_lift_raise; raised].
  rewrite mbind_lift_ok.
  destruct (map_result_load _ _ Hl) as [Hlen Hids].
  destruct loaded as [|r0 loaded]; [cbn [List.length] in Hlen; lia|].
  cbn [unzip3]. rewrite mbind_lift_ok. cbn beta iota. cbn [map].
  rewrite mbind_lift_ok.
  destruct (check_same_video (snd r0) (snd r0 :: map snd loaded)) as [[]|e] eqn:Hc;
    [|rewrite mbind_lift_raise; raised].
  rewrite mbind_lift_ok.
  destruct (snd r0) as [p|] eqn:Hp;
    [|rewrite mbind_lift_raise; raised].
  rewrite mbind_lift_ok, mbind_emit.
  destruct (read_csv w (p ++ "cars.csv")%string) as [cars|];
    [|rewrite mbind_lift_raise; cbn [fst snd]; raised].
  rewrite mbind_lift_ok.
  remember (fst (fst r0) :: map (fun r => fst (fst r)) loaded) as run_ids eqn:Hrun.
  assert (Hsame : forall k, In k run_ids -> k = Spec.run_identifier (Some p)).
  { intros k Hk. rewrite Forall_forall in Hids.
    assert (Hr : exists r, In r (r0 :: loaded) /\ k = fst (fst r)).
    { subst run_ids. destruct Hk as [<-|Hk].
      - exists r0. split; [now left|reflexivity].
      - apply in_map_iff in Hk as (r & <- & Hr). exists r. split; [now right|reflexivity]. }
    destruct Hr as (r & Hr & ->). rewrite (Hids r Hr). f_equal.
    apply (check_same_video_ok _ _ Hc).
    destruct Hr as [<-|Hr]; [left; now symmetry|right; now apply in_map]. }
  assert (Hcount : List.length run_ids = List.length logs).
  { subst run_ids. cbn [List.length] in *. rewrite length_map. exact Hlen. }
  assert (Hne : run_ids <> []) by (subst run_ids; discriminate).
  destruct (__generate_aligned_estimations run_ids _ cars) as [r|e] eqn:He;
    [|rewrite mbind_lift_raise; cbn [fst snd]; raised].
  destruct (engine_same_id cars _ _ _ _ Hne Hsame He)
    as (truth & l & timestamps & -> & Ht & Hl' & Hts).
  rewrite mbind_lift_ok. cbn beta iota. rewrite table_dict_one_run.
  unfold DataFrame_of_dict. cbn [forallb snd col_length].
  rewrite Ht, Hl', Hts, Hcount.
  assert (E : Nat.eqb (25 * List.length logs) 25 = false) by (apply Nat.eqb_neq; lia).
  rewrite E. cbn [andb]. rewrite mbind_lift_raise. cbn [fst snd]. raised.
Qed.

(** The report builder raises what the table raised, with its trace. *)
Lemma plot_raise (logs : list string) (save_file_path : option string)
  (t : list event) (e : exn) :
  comparison_table w logs = (t, Raise e) ->
  plot_absolute_error w logs save_file_path = (t, Raise e).
Proof. intros E. unfold plot_absolute_error. now rewrite E. Qed.

Lemma comparison_table_nil : comparison_table w [] = ([], Raise ValueError).
Proof. reflexivity. Qed.

(** What one log gives when the table is not built *)
Lemma comparison_table_one_log (log : string) :
  match __load_log w log with
  | Raise e => comparison_table w [log] = ([], Raise e)
  | Ok (_, _, None) => comparison_table w [log] = ([], Raise TypeError)
  | Ok (id, estimation, Some p) =>
      match read_csv w (p ++ "cars.csv")%string with
      | None =>
          comparison_table w [log] =
          ([ReadCsv (p ++ "cars.csv")%string], Raise FileNotFoundError)
      | Some cars =>
          if has_frameId estimation
          then comparison_table w [log] =
               ([ReadCsv (p ++ "cars.csv")%string],
                Ok ([id], p, comparison_rows id (truth_series cars) (run_series estimation)))
          else comparison_table w [log] =
               ([ReadCsv (p ++ "cars.csv")%string], Raise (KeyError "frameId"))
      end
  end.
Proof.
  destruct (__load_log w log) as [[[id estimation] [p|]]|e] eqn:Hload.
  - destruct (read_csv w (p ++ "cars.csv")%string) as [cars|] eqn:Hcsv.
    + destruct (has_frameId estimation) eqn:Hf.
      * now apply comparison_table_one_run.
      * unfold comparison_table. cbn [map_result]. rewrite Hload. cbn [rbind].
        rewrite mbind_lift_ok. cbn [unzip3 map fst snd]. rewrite !mbind_lift_ok.
        cbn [check_same_video]. rewrite path_eqb_refl. cbn [negb].
        rewrite !mbind_lift_ok, mbind_emit, Hcsv, mbind_lift_ok.
        rewrite (engine_one_run_no_frameId _ _ _ Hf). reflexivity.
    + unfold comparison_table. cbn [map_result]. rewrite Hload. cbn [rbind].
      rewrite mbind_lift_ok. cbn [unzip3 map fst snd]. rewrite !mbind_lift_ok.
      cbn [check_same_video]. rewrite path_eqb_refl. cbn [negb].
      rewrite !mbind_lift_ok, mbind_emit, Hcsv. reflexivity.
  - unfold comparison_table. cbn [map_result]. rewrite Hload. cbn [rbind].
    rewrite mbind_lift_ok. cbn [unzip3 map fst snd]. rewrite !mbind_lift_ok.
    reflexivity.
  - unfold comparison_table. cbn [map_result]. rewrite Hload. reflexivity.
Qed.

Lemma path_eqb_neq (a b : option string) : path_eqb a b = false -> a <> b.
Proof. intros E ->. rewrite path_eqb_refl in E. discriminate. Qed.

(** C6: the error view is a signed difference.  A call that ends well had one
    log; the column of its run in the second chart holds, for every retained
    window, the mean of the run minus the mean of the ground truth of that
    window, next to the timestamps of the same windows, and the summary file
    holds for the run the mean of that column. *)
Theorem error_view_signed_difference
  (logs : list string) (dir : string) (tr : list event) :
  plot_absolute_error w logs (Some dir) = (tr, Ok tt) ->
  exists log id estimation cars_path cars first,
    logs = [log] /\
    __load_log w log = Ok (id, estimation, Some cars_path) /\
    read_csv w (cars_path ++ "cars.csv")%string = Some cars /\
    let truth := truth_series cars in
    let means := run_series estimation in
    signed_error truth means = map2 fsub means truth /\
    tr = [ReadCsv (cars_path ++ "cars.csv")%string;
          first;
          WriteImage (report_file w dir cars_path "_mae.pdf")
            {| title := ("Mean Absolute Error (" ++ cars_path ++ ")")%string;
               x := "timestamps"; y := [id; "timestamps"];
               data :=
                 [("truth", FloatCol (retained_rows truth means truth));
                  (id, FloatCol (retained_rows truth means (signed_error truth means)));
                  ("timestamps", IntCol (retained_rows truth means Spec.window_ends))] |};
          ToCsv (report_file w dir cars_path "_error.csv")
            [(id, mean (retained_rows truth means (signed_error truth means)))]].
Proof.
  intros Hplot. destruct logs as [|log [|log2 rest]].
  - rewrite (plot_raise _ _ _ _ comparison_table_nil) in Hplot. discriminate.
  - pose proof (comparison_table_one_log log) as Hc.
    destruct (__load_log w log) as [[[id estimation] [p|]]|e] eqn:Hload.
    + destruct (read_csv w (p ++ "cars.csv")%string) as [cars|] eqn:Hcsv.
      * destruct (has_frameId estimation) eqn:Hf.
        -- rewrite (plot_one_run _ _ _ _ _ dir Hload Hf Hcsv) in Hplot.
           injection Hplot as <-.
           eexists log, id, estimation, p, cars, _.
           split; [reflexivity|]. split; [exact Hload|]. split; [exact Hcsv|].
           intros truth means. split; reflexivity.
        -- rewrite (plot_raise _ _ _ _ Hc) in Hplot. discriminate.
      * rewrite (plot_raise _ _ _ _ Hc) in Hplot. discriminate.
    + rewrite (plot_raise _ _ _ _ Hc) in Hplot. discriminate.
    + rewrite (plot_raise _ _ _ _ Hc) in Hplot. discriminate.
  - destruct (comparison_table_several (log :: log2 :: rest)) as (t & e & Hc & _).
    { cbn [List.length]. lia. }
    rewrite (plot_raise _ _ _ _ Hc) in Hplot. discriminate.
Qed.

(** C5: when two of the loaded logs name different videos the call raises
    the exception of the video check, which is not the error of the decoder,
    and its trace is empty: the ground truth was not read, no window was
    aggregated and nothing was shown or written. *)
Theorem different_videos_abort
  (logs : list string) (save_file_path : option string)
  (loaded : list (string * list line_dict * option string))
  (r1 r2 : string * list line_dict * option string) :
  map_result (__load_log w) logs = Ok loaded ->
  In r1 loaded ->
  In r2 loaded ->
  snd r1 <> snd r2 ->
  comparison_table w logs = ([], Raise (Exception same_video_message)) /\
  plot_absolute_error w logs save_file_path =
    ([], Raise (Exception same_video_message)) /\
  Exception same_video_message <> JSONDecodeError.
Proof.
  intros Hl H1 H2 Hne.
  assert (Hc : comparison_table w logs = ([], Raise (Exception same_video_message))).
  { unfold comparison_table. rewrite Hl, mbind_lift_ok.
    destruct loaded as [|r0 loaded]; [contradiction|].
    cbn [unzip3]. rewrite mbind_lift_ok. cbn beta iota. cbn [map].
    rewrite mbind_lift_ok.
    rewrite check_same_video_differs; [reflexivity|].
    destruct (path_eqb (snd r1) (snd r0)) eqn:E.
    - apply path_eqb_eq in E. exists (snd r2). split.
      + change (In (snd r2) (map snd (r0 :: loaded))). now apply in_map.
      + intros E2. apply Hne. now rewrite E, E2.
    - apply path_eqb_neq in E. exists (snd r1). split; [|exact E].
      change (In (snd r1) (map snd (r0 :: loaded))). now apply in_map. }
  split; [exact Hc|]. split; [now apply plot_raise|discriminate].
Qed.

Lemma map_result_unknown (logs : list string) :
  (forall log, In log logs ->
               exists estimation, __load_log w log = Ok ("-1_depth_0", estimation, None)) ->
  exists loaded,
    map_result (__load_log w) logs = Ok loaded /\
    List.length loaded = List.length logs /\
    forall c, In c (map snd loaded) -> c = None.
Proof.
  induction logs as [|log logs IH]; intros Hall.
  - exists []. repeat split. intros c [].
  - destruct (Hall log (or_introl eq_refl)) as (estimation & Hload).
    destruct IH as (loaded & Hl & Hlen & Hnone).
    { intros l Hin. apply Hall. now right. }
    exists (("-1_depth_0", estimation, None) :: loaded).
    cbn [map_result]. rewrite Hload. cbn [rbind]. rewrite Hl. cbn [rbind].
    split; [reflexivity|]. split; [cbn [List.length]; lia|].
    intros c [<-|Hin]; [reflexivity|now apply Hnone].
Qed.

Lemma check_same_video_all (c : option string) (cs : list (option string)) :
  (forall c', In c' cs -> c' = c) -> check_same_video c cs = Ok tt.
Proof.
  induction cs as [|c0 cs IH]; intros Hall; [reflexivity|].
  cbn [check_same_video]. rewrite (Hall c0 (or_introl eq_refl)), path_eqb_refl.
  cbn [negb]. apply IH. intros c' Hin. apply Hall. now right.
Qed.

(** C10: when no log names its video on its first line, every load returns
    the run identifier [-1_depth_0] and the unknown path, the video check
    passes, and the call raises a type error where the unknown path is joined
    with the name of the ground-truth file: the trace is empty, so the ground
    truth is not read and no chart or summary is made. *)
Theorem unknown_video_aborts (logs : list string) (save_file_path : option string) :
  logs <> [] ->
  (forall log, In log logs ->
               exists lines, open_log w log = Some lines /\ well_formed w lines /\
                             first_line_path lines = None) ->
  (forall log, In log logs ->
               exists estimation, __load_log w log = Ok ("-1_depth_0", estimation, None)) /\
  (exists loaded, map_result (__load_log w) logs = Ok loaded /\
                  check_same_video None (map snd loaded) = Ok tt) /\
  comparison_table w logs = ([], Raise TypeError) /\
  plot_absolute_error w logs save_file_path = ([], Raise TypeError).
Proof.
  intros Hne Hlogs.
  assert (Hload : forall log, In log logs ->
            exists estimation, __load_log w log = Ok ("-1_depth_0", estimation, None)).
  { intros log Hin. destruct (Hlogs log Hin) as (lines & Hopen & Hwf & Hnone).
    exists (observations w lines).
    rewrite (load_log_well_formed _ _ _ Hopen Hwf), Hnone. reflexivity. }
  destruct (map_result_unknown logs Hload) as (loaded & Hl & Hlen & Hnone).
  pose proof (check_same_video_all None (map snd loaded) Hnone) as Hcheck.
  assert (Hc : comparison_table w logs = ([], Raise TypeError)).
  { unfold comparison_table. rewrite Hl, mbind_lift_ok.
    destruct loaded as [|r0 loaded].
    - destruct logs; [contradiction|discriminate].
    - cbn [unzip3]. rewrite mbind_lift_ok. cbn beta iota. cbn [map].
      rewrite mbind_lift_ok.
      assert (E : snd r0 = None) by (apply Hnone; now left).
      cbn [map] in Hcheck. rewrite E in *. rewrite Hcheck, mbind_lift_ok. reflexivity. }
  split; [exact Hload|]. split; [now exists loaded|].
  split; [exact Hc|now apply plot_raise].
Qed.

End Report.

(** ** Further properties of the engine and of the report *)

Section DictKeys.

Context {V : Type}.

Lemma in_keys_set_same (d : Dict.t V) (k : string) (v : V) :
  In k (Dict.keys (Dict.set d k v)).
Proof.
  induction d as [|[k' v'] d IH]; cbn [Dict.set]; [now left|].
  destruct (String.eqb k' k) eqn:E; cbn [Dict.keys map fst].
  - left. now apply String.eqb_eq.
  - right. exact IH.
Qed.

Lemma in_keys_set (d : Dict.t V) (k k' : string) (v : V) :
  In k' (Dict.keys d) -> In k' (Dict.keys (Dict.set d k v)).
Proof.
  induction d as [|[k0 v0] d IH]; cbn [Dict.set]; [contradiction|].
  destruct (String.eqb k0 k); cbn [Dict.keys map fst]; intros [E|Hin].
  - now left.
  - now right.
  - now left.
  - right. now apply IH.
Qed.

Lemma get_in_keys (d : Dict.t V) (k : string) :
  In k (Dict.keys d) -> exists v, Dict.get d k = Some v.
Proof.
  induction d as [|[k0 v0] d IH]; [contradiction|].
  cbn [Dict.keys map fst Dict.get]. intros Hin.
  destruct (String.eqb k0 k) eqn:E; [now exists v0|].
  destruct Hin as [E'|Hin]; [|now apply IH].
  apply String.eqb_neq in E. contradiction.
Qed.

Lemma in_keys_of_keys (ks : list string) (v : V) (k : string) :
  In k ks -> In k (Dict.keys (Dict.of_keys ks v)).
Proof.
  unfold Dict.of_keys. generalize (@nil (string * V)) as d.
  induction ks as [|k0 ks IH]; intros d Hin; [contradiction|].
  cbn [fold_left]. destruct Hin as [->|Hin]; [|now apply IH].
  clear IH. generalize (in_keys_set_same d k v). generalize (Dict.set d k v) as d'.
  induction ks as [|k1 ks IH]; intros d' Hd'; [exact Hd'|].
  cbn [fold_left]. apply IH. now apply in_keys_set.
Qed.

End DictKeys.

Section Schedule.

Context `{Float64}.
Variable cars : list car.
Variable loaded_avg_speeds : list (list line_dict).

Hypothesis columns :
  Forall (fun estimation =>
            has_frameId estimation = true /\ has_avgSpeedTowards estimation = true)
         loaded_avg_speeds.

Lemma fold_append_total (s e : Z) (ps : list (nat * string)) :
  forall d,
    (forall p, In p ps ->
               In (snd p) (Dict.keys d) /\ fst p < List.length loaded_avg_speeds) ->
    exists d',
      fold_result (append_estimation loaded_avg_speeds s e) ps d = Ok d' /\
      forall k, In k (Dict.keys d) -> In k (Dict.keys d').
Proof.
  induction ps as [|[idx id] ps IH]; intros d Hps.
  - exists d. split; [reflexivity|trivial].
  - destruct (Hps (idx, id) (or_introl eq_refl)) as [Hkey Hidx]. cbn [fst snd] in *.
    destruct (get_in_keys d id Hkey) as (l & Hl).
    destruct (nth_error loaded_avg_speeds idx) as [estimation|] eqn:Hn;
      [|apply nth_error_None in Hn; lia].
    rewrite Forall_forall in columns.
    destruct (columns estimation (nth_error_In _ _ Hn)) as [Hf Hs].
    destruct (IH (Dict.set d id (l ++ [window_mean estimation s e]))) as (d' & Hd' & Hkeys).
    { intros p Hp. destruct (Hps p (or_intror Hp)) as [Hk Hi].
      split; [now apply in_keys_set|exact Hi]. }
    exists d'. split.
    + cbn [fold_result]. unfold append_estimation at 1.
      rewrite Hl, Hn, (avg_estimation_ok _ _ _ Hf Hs). cbn [rbind]. exact Hd'.
    + intros k Hk. apply Hkeys. now apply in_keys_set.
Qed.

Lemma fold_window_total (run_ids : list string) (ws : list Z) :
  List.length run_ids <= List.length loaded_avg_speeds ->
  forall truth d timestamps,
    (forall k, In k run_ids -> In k (Dict.keys d)) ->
    exists d',
      fold_result (window run_ids loaded_avg_speeds cars) ws (truth, d, timestamps) =
      Ok (truth ++ map (fun s => __avg_speed_for_time_ground_truth cars s (s + 60)%Z) ws,
          d',
          timestamps ++ map (fun s => (s + 60)%Z) ws) /\
      forall k, In k run_ids -> In k (Dict.keys d').
Proof.
  intros Hlen. induction ws as [|s ws IH]; intros truth d timestamps Hd.
  - exists d. cbn [fold_result map]. rewrite !app_nil_r. now split.
  - destruct (fold_append_total s (s + 60)%Z (enumerate run_ids) d) as (d1 & Hd1 & Hk1).
    { intros [idx id] Hp. unfold enumerate in Hp. cbn [fst snd]. split.
      - apply Hd. now apply in_combine_r in Hp.
      - apply in_combine_l, in_seq in Hp. lia. }
    destruct (IH (truth ++ [__avg_speed_for_time_ground_truth cars s (s + 60)%Z]) d1
                 (timestamps ++ [(s + 60)%Z])) as (d' & Hd' & Hk').
    { intros k Hk. apply Hk1. now apply Hd. }
    exists d'. split; [|exact Hk'].
    cbn [fold_result map]. unfold window at 1. rewrite Hd1. cbn [rbind].
    rewrite Hd'. now rewrite <- !app_assoc.
Qed.

(** The schedule of the engine: when every run has a frame with both
    columns, the engine returns the means of the ground truth of the 25
    windows from second 300 to second 1800 and the timestamps 360, 420, ...,
    1800, whatever the records are, and a list for every run identifier. *)
Theorem engine_schedule (run_ids : list string) :
  List.length run_ids <= List.length loaded_avg_speeds ->
  exists estimations,
    __generate_aligned_estimations run_ids loaded_avg_speeds cars =
      Ok (truth_series cars, estimations, Spec.window_ends) /\
    List.length (truth_series cars) = 25 /\
    forall k, In k run_ids -> In k (Dict.keys estimations).
Proof.
  intros Hlen. unfold __generate_aligned_estimations. rewrite range_window_starts.
  destruct (fold_window_total run_ids Spec.window_starts Hlen [] (Dict.of_keys run_ids [])
              []) as (d' & Hd' & Hk').
  { intros k Hk. now apply in_keys_of_keys. }
  exists d'. split; [|split; [apply series_lengths; exact []|exact Hk']].
  rewrite Hd'. cbn [app]. now rewrite window_ends_of_starts.
Qed.

End Schedule.

Section FurtherReport.

Context `{Float64}.
Variable w : world.

(** An empty selection gives NaN, for both aggregators, once the frame of the
    run has its columns. *)
Theorem empty_window_is_nan
  (estimation : list line_dict) (cars : list car) (timeStart timeEnd : Z) :
  has_frameId estimation = true ->
  has_avgSpeedTowards estimation = true ->
  filter (frame_selected (timeStart * 50) (timeEnd * 50)) estimation = [] ->
  filter (truth_selected timeStart timeEnd) cars = [] ->
  (exists v, __avg_speed_for_time_estimation estimation timeStart timeEnd = Ok v /\
             isnan v = true) /\
  isnan (__avg_speed_for_time_ground_truth cars timeStart timeEnd) = true.
Proof.
  intros Hf Hs He Hc. split.
  - exists (window_mean estimation timeStart timeEnd).
    split; [now apply avg_estimation_ok|].
    unfold window_mean. rewrite He. apply mean_isnan_nil.
  - unfold __avg_speed_for_time_ground_truth. rewrite Hc. apply mean_isnan_nil.
Qed.

(** The table of a call has no NaN: the rows with one were dropped. *)
Theorem table_has_no_missing_value
  (logs : list string) (t : list event) (run_ids : list string) (cars_path : string)
  (df : DataFrame) (k : string) (xs : list F) (v : F) :
  comparison_table w logs = (t, Ok (run_ids, cars_path, df)) ->
  In (k, FloatCol xs) df ->
  In v xs ->
  isnan v = false.
Proof.
  intros Htable Hcol Hv. destruct logs as [|log [|log2 rest]].
  - rewrite comparison_table_nil in Htable. discriminate.
  - pose proof (comparison_table_one_log w log) as Hc.
    destruct (__load_log w log) as [[[id estimation] [p|]]|e];
      [|rewrite Hc in Htable; discriminate|rewrite Hc in Htable; discriminate].
    destruct (read_csv w (p ++ "cars.csv")%string) as [cars|];
      [|rewrite Hc in Htable; discriminate].
    destruct (has_frameId estimation); [|rewrite Hc in Htable; discriminate].
    rewrite Hc in Htable. injection Htable as _ _ _ <-.
    unfold comparison_rows in Hcol. rewrite <- dropna_one_run in Hcol.
    exact (dropna_no_nan _ _ _ _ Hcol Hv).
  - destruct (comparison_table_several w (log :: log2 :: rest)) as (t' & e & Hc & _).
    { cbn [List.length]. lia. }
    rewrite Hc in Htable. discriminate.
Qed.

(** A call with two logs or more never gets to a chart: it raises, and
    nothing was shown or written. *)
Theorem several_logs_never_report (logs : list string) (save_file_path : option string) :
  2 <= List.length logs ->
  exists t e,
    plot_absolute_error w logs save_file_path = (t, Raise e) /\
    (t = [] \/ exists path, t = [ReadCsv path]).
Proof.
  intros Hn. destruct (comparison_table_several w logs Hn) as (t & e & Hc & Ht).
  exists t, e. split; [now apply plot_raise|exact Ht].
Qed.


End FurtherReport.

(** ** More on the loader *)

Section LoaderErrors.

Context `{Float64}.
Variable w : world.




(** The run identifier is a function of the video path alone: two logs of
    one video, and two logs without a video line, load under one identifier. *)
Theorem load_log_same_video_same_id
  (log1 log2 id1 id2 : string) (estimation1 estimation2 : list line_dict)
  (cars_path : option string) :
  __load_log w log1 = Ok (id1, estimation1, cars_path) ->
  __load_log w log2 = Ok (id2, estimation2, cars_path) ->
  id1 = id2.
Proof.
  intros H1 H2.
  destruct (load_log_ok _ _ _ H1) as (lines1 & _ & _ & E1).
  destruct (load_log_ok _ _ _ H2) as (lines2 & _ & _ & E2).
  injection E1 as -> _ ->. injection E2 as -> _ E. now rewrite E.
Qed.

(** Every record a load returns has the speed key, so the frame built from
    them has the speed column as soon as it has a row, and the estimation
    aggregator never misses that column on it: on a loaded frame the only
    column that can be missing is the one of the frame ids. *)
Theorem load_log_records_have_speed
  (log_path id : string) (estimation : list line_dict) (cars_path : option string) :
  __load_log w log_path = Ok (id, estimation, cars_path) ->
  Forall (fun d => is_some (avgSpeedTowards d) = true) estimation /\
  (has_avgSpeedTowards estimation = true <-> estimation <> []) /\
  forall timeStart timeEnd,
    __avg_speed_for_time_estimation estimation timeStart timeEnd <>
    Raise (KeyError "avgSpeedTowards").
Proof.
  intros Hload. destruct (load_log_ok _ _ _ Hload) as (lines & _ & _ & E).
  injection E as _ -> _.
  pose proof (observations_speed w lines) as Hall.
  split; [exact Hall|]. split.
  - split.
    + intros Hs Hnil. rewrite Hnil in Hs. discriminate.
    + destruct (observations w lines) as [|d rest]; [contradiction|]. intros _.
      cbn [has_avgSpeedTowards existsb]. inversion Hall as [|? ? Hd _]. now rewrite Hd.
  - intros timeStart timeEnd.
    destruct (has_frameId (observations w lines)) eqn:Hf.
    + rewrite (avg_estimation_ok _ _ _ Hf (has_frameId_speed _ Hall Hf)). discriminate.
    + rewrite (avg_estimation_no_frameId _ _ _ Hf). discriminate.
Qed.

End LoaderErrors.

(** ** The video path of a log and its last segment *)

Section VideoPath.

Lemma string_app_assoc (s t u : string) : ((s ++ t) ++ u = s ++ (t ++ u))%string.
Proof. induction s as [|a s IH]; cbn; [reflexivity|now rewrite IH]. Qed.

Lemma prefix_append (p s : string) : String.prefix p (p ++ s) = true.
Proof.
  induction p as [|a p IH]; cbn [String.append String.prefix]; [now destruct s|].
  destruct (ascii_dec a a) as [_|N]; [exact IH|now contradiction N].
Qed.


Lemma drop_append (p s : string) : PyStr.drop (String.length p) (p ++ s) = s.
Proof. induction p as [|a p IH]; [reflexivity|exact IH]. Qed.

Lemma dot_star_line (p t : string) :
  PyStr.contains Re.newline p = false ->
  t = "" \/ (exists rest, t = String Re.newline rest) ->
  Re.dot_star (p ++ t) = p.
Proof.
  intros Hp Ht. induction p as [|a p IH]; cbn [String.append Re.dot_star].
  - destruct Ht as [->|(rest & ->)]; [reflexivity|].
    cbn [Re.dot_star]. now rewrite Ascii.eqb_refl.
  - cbn [PyStr.contains] in Hp. apply orb_false_iff in Hp as [Ha Hp].
    rewrite Ha. f_equal. now apply IH.
Qed.




Lemma search_group_skip (a : ascii) (s : string) :
  Ascii.eqb a "V" = false ->
  Re.search_group "Video: " (String a s) = Re.search_group "Video: " s.
Proof.
  intros Ha. cbn [Re.search_group String.prefix].
  destruct (ascii_dec "V" a) as [<-|_]; [discriminate Ha|reflexivity].
Qed.

(** A first line made of a prefix without a capital V (the tag of the logger,
    say), the marker, a path without a newline and the end of the line gives
    that path back, whatever follows in the file. *)
Theorem video_line_round_trip (pre p t : string) (rest : list string) :
  PyStr.contains "V" pre = false ->
  PyStr.contains Re.newline p = false ->
  t = "" \/ (exists more, t = String Re.newline more) ->
  first_line_path ((pre ++ "Video: " ++ p ++ t)%string :: rest) = Some p.
Proof.
  intros Hpre Hp Ht. cbn [first_line_path].
  induction pre as [|a pre IH].
  - change ("" ++ "Video: " ++ p ++ t)%string with ("Video: " ++ (p ++ t))%string.
    unfold Re.search_group at 1.
    destruct ("Video: " ++ (p ++ t))%string eqn:E; [discriminate|]. rewrite <- E.
    rewrite prefix_append, drop_append. now rewrite (dot_star_line p t Hp Ht).
  - cbn [PyStr.contains] in Hpre. apply orb_false_iff in Hpre as [Ha Hpre].
    cbn [String.append]. rewrite (search_group_skip a _ Ha). now apply IH.
Qed.


Section Separator.

Variable c : ascii.

Lemma contains_append (s t : string) :
  PyStr.contains c (s ++ t) = PyStr.contains c s || PyStr.contains c t.
Proof.
  induction s as [|a s IH]; [reflexivity|].
  cbn [String.append PyStr.contains]. now rewrite IH, orb_assoc.
Qed.

Lemma rstrip_without (s : string) :
  PyStr.contains c s = false -> PyStr.rstrip c s = s.
Proof.
  induction s as [|a s IH]; [reflexivity|]. cbn [PyStr.contains PyStr.rstrip].
  intros Hc. apply orb_false_iff in Hc as [Ha Hs]. rewrite (IH Hs), Ha.
  now destruct s.
Qed.

Lemma rstrip_append_sep (s : string) :
  PyStr.rstrip c (s ++ String c "") = PyStr.rstrip c s.
Proof.
  induction s as [|a s IH]; cbn [String.append PyStr.rstrip].
  - now rewrite Ascii.eqb_refl.
  - now rewrite IH.
Qed.

Lemma rstrip_keep (s t : string) :
  PyStr.rstrip c t <> "" -> PyStr.rstrip c (s ++ t) = (s ++ PyStr.rstrip c t)%string.
Proof.
  intros Ht. induction s as [|a s IH]; [reflexivity|].
  cbn [String.append PyStr.rstrip]. rewrite IH.
  destruct (s ++ PyStr.rstrip c t)%string eqn:E; [|reflexivity].
  destruct s; [|discriminate]. cbn [String.append] in E. contradiction.
Qed.

Lemma after_last_append (s name : string) :
  PyStr.contains c name = false ->
  Spec.after_last c (s ++ String c name) = name.
Proof.
  intros Hn. induction s as [|a s IH]; cbn [String.append Spec.after_last].
  - now rewrite Hn, Ascii.eqb_refl.
  - rewrite contains_append. cbn [PyStr.contains]. rewrite Ascii.eqb_refl.
    cbn [orb]. rewrite orb_true_r. exact IH.
Qed.

Lemma after_last_clean (s : string) :
  PyStr.contains c (Spec.after_last c s) = false.
Proof.
  induction s as [|a s IH]; [reflexivity|]. cbn [Spec.after_last].
  destruct (PyStr.contains c s) eqn:Hs; [exact IH|].
  destruct (Ascii.eqb a c) eqn:Ha; [exact Hs|].
  cbn [PyStr.contains]. now rewrite Ha, Hs.
Qed.

End Separator.

Section Segment.

Context `{Float64}.

(** The video id is the base name of the video path: for a directory, a
    slash and a name without a slash it is the name, also when the path ends
    with one more slash. *)
Theorem last_segment_basename (dir name : string) :
  name <> "" ->
  PyStr.contains "/" name = false ->
  last_segment (dir ++ "/" ++ name) = name /\
  last_segment (dir ++ "/" ++ name ++ "/") = name.
Proof.
  intros Hne Hn.
  assert (Hsep : PyStr.rstrip "/" (String "/" name) = String "/" name).
  { cbn [PyStr.rstrip]. rewrite (rstrip_without "/" name Hn).
    destruct name; [contradiction|reflexivity]. }
  assert (Hkeep : PyStr.rstrip "/" (dir ++ String "/" name) = (dir ++ String "/" name)%string).
  { rewrite rstrip_keep; rewrite Hsep; [reflexivity|discriminate]. }
  rewrite !last_segment_spec. unfold Spec.last_path_segment. split.
  - change (dir ++ "/" ++ name)%string with (dir ++ String "/" name)%string.
    rewrite Hkeep. now apply after_last_append.
  - change (dir ++ "/" ++ name ++ "/")%string
      with (dir ++ String "/" (name ++ String "/" ""))%string.
    replace (dir ++ String "/" (name ++ String "/" ""))%string
      with ((dir ++ String "/" name) ++ String "/" "")%string
      by (now rewrite string_app_assoc).
    rewrite rstrip_append_sep, Hkeep. now apply after_last_append.
Qed.

(** The video id never holds a slash, whatever the path is. *)
Theorem last_segment_has_no_slash (cars_path : string) :
  PyStr.contains "/" (last_segment cars_path) = false.
Proof.
  rewrite last_segment_spec. unfold Spec.last_path_segment. apply after_last_clean.
Qed.

End Segment.

End VideoPath.

(** ** The windows of the schedule *)

Lemma window_starts_iff (s : Z) :
  In s Spec.window_starts <-> exists k, (0 <= k < 25)%Z /\ s = (300 + 60 * k)%Z.
Proof.
  unfold Spec.window_starts. rewrite in_map_iff. split.
  - intros (n & <- & Hn). apply in_seq in Hn. exists (Z.of_nat n). lia.
  - intros (k & Hk & ->). exists (Z.to_nat k). split; [lia|apply in_seq; lia].
Qed.

Section Partition.

Context `{Float64}.

(** The windows of the schedule cut the frame ids from 15001 to 90000 into
    25 parts: an observation whose frame id is in that range is averaged in
    one window and one only, and an observation outside it in none; no
    observation is counted twice. *)
Theorem windows_partition (d : line_dict) (f : Z) :
  frameId d = Some f ->
  ((15000 < f <= 90000)%Z <->
   exists s, In s Spec.window_starts /\
             frame_selected (s * 50) ((s + 60) * 50) d = true) /\
  (forall s1 s2,
     In s1 Spec.window_starts -> In s2 Spec.window_starts ->
     frame_selected (s1 * 50) ((s1 + 60) * 50) d = true ->
     frame_selected (s2 * 50) ((s2 + 60) * 50) d = true ->
     s1 = s2).
Proof.
  intros Hf.
  assert (Hsel : forall s, frame_selected (s * 50) ((s + 60) * 50) d = true <->
                           (s * 50 < f <= (s + 60) * 50)%Z).
  { intros s. rewrite frame_selected_iff. split.
    - intros (g & Hg & Hb). rewrite Hf in Hg. now injection Hg as <-.
    - intros Hb. now exists f. }
  split; [split|].
  - intros Hb.
    pose proof (Z.div_mod (f - 15001) 3000 ltac:(lia)) as Hdiv.
    pose proof (Z.mod_pos_bound (f - 15001) 3000 ltac:(lia)) as Hmod.
    remember ((f - 15001) / 3000)%Z as q eqn:Hq. clear Hq.
    exists (300 + 60 * q)%Z. split.
    + apply window_starts_iff. exists q. split; [lia|reflexivity].
    + apply Hsel. lia.
  - intros (s & Hs & Hb). apply window_starts_iff in Hs as (k & Hk & ->).
    apply Hsel in Hb. lia.
  - intros s1 s2 H1 H2 B1 B2.
    apply window_starts_iff in H1 as (k1 & Hk1 & ->).
    apply window_starts_iff in H2 as (k2 & Hk2 & ->).
    apply Hsel in B1. apply Hsel in B2. lia.
Qed.

End Partition.

(** ** The dictionary of the estimations *)

Section DictLookup.

Context {V : Type}.

Lemma get_set_same (d : Dict.t V) (k : string) (v : V) :
  Dict.get (Dict.set d k v) k = Some v.
Proof.
  induction d as [|[k0 v0] d IH]; cbn [Dict.set Dict.get].
  - now rewrite String.eqb_refl.
  - destruct (String.eqb k0 k) eqn:E; cbn [Dict.get]; rewrite E; [reflexivity|exact IH].
Qed.

Lemma get_set_other (d : Dict.t V) (k k' : string) (v : V) :
  k <> k' -> Dict.get (Dict.set d k v) k' = Dict.get d k'.
Proof.
  intros Hne. induction d as [|[k0 v0] d IH]; cbn [Dict.set Dict.get].
  - apply String.eqb_neq in Hne. now rewrite Hne.
  - destruct (String.eqb k0 k) eqn:E; cbn [Dict.get].
    + apply String.eqb_eq in E. subst k0.
      apply String.eqb_neq in Hne. now rewrite Hne.
    + now rewrite IH.
Qed.

Lemma keys_set_old (d : Dict.t V) (k : string) (v : V) :
  In k (Dict.keys d) -> Dict.keys (Dict.set d k v) = Dict.keys d.
Proof.
  induction d as [|[k0 v0] d IH]; [contradiction|].
  cbn [Dict.set Dict.keys map fst]. intros Hin.
  destruct (String.eqb k0 k) eqn:E; [reflexivity|].
  cbn [map fst]. f_equal. apply IH.
  destruct Hin as [E'|Hin]; [|exact Hin].
  apply String.eqb_neq in E. contradiction.
Qed.

Lemma keys_set_new (d : Dict.t V) (k : string) (v : V) :
  ~ In k (Dict.keys d) -> Dict.keys (Dict.set d k v) = Dict.keys d ++ [k].
Proof.
  induction d as [|[k0 v0] d IH]; [reflexivity|].
  cbn [Dict.set Dict.keys map fst]. intros Hin.
  destruct (String.eqb k0 k) eqn:E.
  - apply String.eqb_eq in E. exfalso. apply Hin. now left.
  - cbn [map fst app]. f_equal. apply IH. intros Hk. apply Hin. now right.
Qed.

Lemma get_of_keys (ks : list string) (v : V) (r : string) :
  In r ks -> Dict.get (Dict.of_keys ks v) r = Some v.
Proof.
  unfold Dict.of_keys. generalize (@nil (string * V)) as d.
  assert (Hkeep : forall ks d, Dict.get d r = Some v ->
                    Dict.get (fold_left (fun d k => Dict.set d k v) ks d) r = Some v).
  { clear ks. induction ks as [|k ks IH]; intros d Hd; [exact Hd|].
    cbn [fold_left]. apply IH.
    destruct (String.eqb k r) eqn:E.
    - apply String.eqb_eq in E. subst k. apply get_set_same.
    - apply String.eqb_neq in E. now rewrite get_set_other. }
  induction ks as [|k ks IH]; intros d Hin; [contradiction|].
  cbn [fold_left]. destruct Hin as [->|Hin]; [|now apply IH].
  apply Hkeep. apply get_set_same.
Qed.

Lemma keys_of_keys_distinct (ks : list string) (v : V) :
  NoDup ks -> Dict.keys (Dict.of_keys ks v) = ks.
Proof.
  unfold Dict.of_keys.
  assert (Hgen : forall ks d, NoDup (Dict.keys d ++ ks) ->
            Dict.keys (fold_left (fun d k => Dict.set d k v) ks d) = Dict.keys d ++ ks).
  { clear ks. induction ks as [|k ks IH]; intros d Hnd.
    - cbn [fold_left]. now rewrite app_nil_r.
    - cbn [fold_left].
      assert (Hk : ~ In k (Dict.keys d)).
      { apply NoDup_remove_2 in Hnd. intros Hk. apply Hnd. apply in_or_app. now left. }
      rewrite IH; rewrite (keys_set_new d k v Hk), <- app_assoc; [reflexivity|exact Hnd]. }
  intros Hnd. now rewrite (Hgen ks []).
Qed.

End DictLookup.

(** ** The lists of the engine *)

Lemma in_combine_seq_nth {A : Type} (l : list A) :
  forall (k i : nat) (a : A),
    nth_error l i = Some a -> In (k + i, a) (combine (seq k (List.length l)) l).
Proof.
  induction l as [|x l IH]; intros k i a Hi; [now destruct i|].
  cbn [List.length seq combine]. destruct i as [|i]; cbn [nth_error] in Hi.
  - injection Hi as ->. left. f_equal. lia.
  - right. replace (k + S i) with (S k + i) by lia. now apply IH.
Qed.

Lemma in_enumerate {A : Type} (l : list A) (i : nat) (a : A) :
  nth_error l i = Some a -> In (i, a) (enumerate l).
Proof. intros Hi. exact (in_combine_seq_nth l 0 i a Hi). Qed.

Lemma flat_map_singleton {A B : Type} (f : A -> B) (l : list A) :
  flat_map (fun a => [f a]) l = map f l.
Proof. induction l as [|a l IH]; [reflexivity|]. cbn [flat_map map app]. now rewrite IH. Qed.

Section Lists.

Context `{Float64}.
Variable cars : list car.
Variable loaded_avg_speeds : list (list line_dict).

Lemma avg_estimation_ok_inv (estimation : list line_dict) (timeStart timeEnd : Z) (v : F) :
  __avg_speed_for_time_estimation estimation timeStart timeEnd = Ok v ->
  has_frameId estimation = true /\ has_avgSpeedTowards estimation = true.
Proof.
  unfold __avg_speed_for_time_estimation.
  destruct (has_frameId estimation); cbn [negb]; [|discriminate].
  destruct (has_avgSpeedTowards estimation); cbn [negb]; [now split|discriminate].
Qed.

Lemma fold_append_spec (s e : Z) (ps : list (nat * string)) :
  forall d,
    (forall p, In p ps -> In (snd p) (Dict.keys d) /\ run_ready loaded_avg_speeds (fst p)) ->
    exists d',
      fold_result (append_estimation loaded_avg_speeds s e) ps d = Ok d' /\
      Dict.keys d' = Dict.keys d /\
      forall r, Dict.get d' r =
                option_map (fun l => l ++ contributions loaded_avg_speeds s e r ps)
                           (Dict.get d r).
Proof.
  induction ps as [|[idx id] ps IH]; intros d Hps.
  - exists d. split; [reflexivity|]. split; [reflexivity|]. intros r.
    destruct (Dict.get d r); cbn [option_map contributions flat_map]; [|reflexivity].
    now rewrite app_nil_r.
  - destruct (Hps (idx, id) (or_introl eq_refl)) as [Hkey (estimation & Hn & Hf & Hs)].
    cbn [fst snd] in Hkey, Hn.
    destruct (get_in_keys d id Hkey) as (l & Hl).
    destruct (IH (Dict.set d id (l ++ [window_mean estimation s e])))
      as (d' & Hd' & Hkeys & Hget).
    { intros p Hp. destruct (Hps p (or_intror Hp)) as [Hk Hr].
      split; [now apply in_keys_set|exact Hr]. }
    exists d'. split; [|split].
    + cbn [fold_result]. unfold append_estimation at 1.
      rewrite Hl, Hn, (avg_estimation_ok _ _ _ Hf Hs). cbn [rbind]. exact Hd'.
    + rewrite Hkeys. now apply keys_set_old.
    + intros r. rewrite Hget. unfold contributions. cbn [flat_map fst snd].
      rewrite (nth_error_nth _ _ _ Hn).
      destruct (String.eqb id r) eqn:E.
      * apply String.eqb_eq in E. subst r. rewrite get_set_same, Hl.
        cbn [option_map]. now rewrite <- app_assoc.
      * apply String.eqb_neq in E. rewrite (get_set_other _ _ _ _ E). reflexivity.
Qed.

Lemma fold_append_ok_inv (s e : Z) (ps : list (nat * string)) :
  forall d d',
    fold_result (append_estimation loaded_avg_speeds s e) ps d = Ok d' ->
    forall p, In p ps -> run_ready loaded_avg_speeds (fst p).
Proof.
  induction ps as [|[idx id] ps IH]; intros d d' Hd p Hp; [contradiction|].
  cbn [fold_result] in Hd. unfold append_estimation at 1 in Hd.
  destruct (Dict.get d id) as [l|]; [|discriminate].
  destruct (nth_error loaded_avg_speeds idx) as [estimation|] eqn:Hn; [|discriminate].
  destruct (__avg_speed_for_time_estimation estimation s e) as [v|] eqn:Hv; [|discriminate].
  cbn [rbind] in Hd. destruct Hp as [<-|Hp].
  - exists estimation. split; [exact Hn|]. exact (avg_estimation_ok_inv _ _ _ _ Hv).
  - exact (IH _ _ Hd p Hp).
Qed.

Variable run_ids : list string.

Lemma fold_window_spec (ws : list Z) :
  (forall i, i < List.length run_ids -> run_ready loaded_avg_speeds i) ->
  forall truth d timestamps,
    (forall k, In k run_ids -> In k (Dict.keys d)) ->
    exists d',
      fold_result (window run_ids loaded_avg_speeds cars) ws (truth, d, timestamps) =
      Ok (truth ++ map (fun s => __avg_speed_for_time_ground_truth cars s (s + 60)%Z) ws,
          d',
          timestamps ++ map (fun s => (s + 60)%Z) ws) /\
      Dict.keys d' = Dict.keys d /\
      forall r, Dict.get d' r =
                option_map (fun l => l ++ filed_under loaded_avg_speeds run_ids r ws)
                           (Dict.get d r).
Proof.
  intros Hready. induction ws as [|s ws IH]; intros truth d timestamps Hd.
  - exists d. cbn [fold_result map]. rewrite !app_nil_r.
    split; [reflexivity|]. split; [reflexivity|]. intros r.
    destruct (Dict.get d r); cbn [option_map filed_under flat_map]; [|reflexivity].
    now rewrite app_nil_r.
  - destruct (fold_append_spec s (s + 60)%Z (enumerate run_ids) d) as (d1 & Hd1 & Hk1 & Hg1).
    { intros [idx id] Hp. unfold enumerate in Hp. cbn [fst snd]. split.
      - apply Hd. now apply in_combine_r in Hp.
      - apply Hready. apply in_combine_l, in_seq in Hp. lia. }
    destruct (IH (truth ++ [__avg_speed_for_time_ground_truth cars s (s + 60)%Z]) d1
                 (timestamps ++ [(s + 60)%Z])) as (d' & Hd' & Hk' & Hg').
    { intros k Hk. rewrite Hk1. now apply Hd. }
    exists d'. split; [|split].
    + cbn [fold_result map]. unfold window at 1. rewrite Hd1. cbn [rbind].
      rewrite Hd'. now rewrite <- !app_assoc.
    + now rewrite Hk', Hk1.
    + intros r. rewrite Hg', Hg1.
      destruct (Dict.get d r); cbn [option_map filed_under flat_map]; [|reflexivity].
      now rewrite <- app_assoc.
Qed.

(** What the engine returns when every run is ready *)
Lemma engine_spec :
  (forall i, i < List.length run_ids -> run_ready loaded_avg_speeds i) ->
  exists estimations,
    __generate_aligned_estimations run_ids loaded_avg_speeds cars =
      Ok (truth_series cars, estimations, Spec.window_ends) /\
    Dict.keys estimations = Dict.keys (Dict.of_keys run_ids (@nil F)) /\
    forall r, In r run_ids ->
              Dict.get estimations r =
              Some (filed_under loaded_avg_speeds run_ids r Spec.window_starts).
Proof.
  intros Hready. unfold __generate_aligned_estimations. rewrite range_window_starts.
  destruct (fold_window_spec Spec.window_starts Hready [] (Dict.of_keys run_ids []) [])
    as (d' & Hd' & Hk' & Hg').
  { intros k Hk. now apply in_keys_of_keys. }
  exists d'. split; [|split].
  - rewrite Hd'. cbn [app]. now rewrite window_ends_of_starts.
  - exact Hk'.
  - intros r Hr. rewrite Hg', (get_of_keys run_ids [] r Hr). reflexivity.
Qed.

(** What made the engine return *)
Lemma engine_ok_ready (r : aligned) :
  __generate_aligned_estimations run_ids loaded_avg_speeds cars = Ok r ->
  forall i, i < List.length run_ids -> run_ready loaded_avg_speeds i.
Proof.
  unfold __generate_aligned_estimations. rewrite range_window_starts.
  change Spec.window_starts with (300%Z :: tl Spec.window_starts).
  cbn [fold_result]. unfold window at 1.
  destruct (fold_result (append_estimation loaded_avg_speeds 300 (300 + 60)%Z)
                        (enumerate run_ids) (Dict.of_keys run_ids []))
    as [d|] eqn:Hd; [|discriminate].
  intros _ i Hi.
  destruct (nth_error run_ids i) as [id|] eqn:Hn; [|apply nth_error_None in Hn; lia].
  exact (fold_append_ok_inv _ _ _ _ _ Hd (i, id) (in_enumerate _ _ _ Hn)).
Qed.

(** The engine returns exactly when every run has its frame in the list of
    the loaded frames and that frame has both columns; a run without a frame
    or with a frame of no record makes it raise. *)
Theorem engine_ok_iff :
  (exists r, __generate_aligned_estimations run_ids loaded_avg_speeds cars = Ok r) <->
  forall i, i < List.length run_ids ->
    exists estimation,
      nth_error loaded_avg_speeds i = Some estimation /\
      has_frameId estimation = true /\ has_avgSpeedTowards estimation = true.
Proof.
  split.
  - intros (r & Hr). exact (engine_ok_ready r Hr).
  - intros Hready. destruct (engine_spec Hready) as (estimations & He & _).
    eexists. exact He.
Qed.

End Lists.

Lemma flat_map_length_const {A B : Type} (f : A -> list B) (c : nat) (l : list A) :
  (forall a, List.length (f a) = c) ->
  List.length (flat_map f l) = List.length l * c.
Proof.
  intros Hf. induction l as [|a l IH]; [reflexivity|].
  cbn [flat_map List.length]. rewrite length_app, Hf, IH. lia.
Qed.

Section RunLists.

Context `{Float64}.
Variable cars : list car.
Variable loaded_avg_speeds : list (list line_dict).

Lemma contributions_absent (s e : Z) (r : string) (l : list string) :
  ~ In r l ->
  forall k, contributions loaded_avg_speeds s e r (combine (seq k (List.length l)) l) = [].
Proof.
  unfold contributions. induction l as [|x l IH]; intros Hr k; [reflexivity|].
  cbn [List.length seq combine flat_map fst snd].
  destruct (String.eqb x r) eqn:E.
  - apply String.eqb_eq in E. exfalso. apply Hr. now left.
  - cbn [app]. apply IH. intros Hin. apply Hr. now right.
Qed.

Lemma contributions_distinct (s e : Z) (r : string) (l : list string) :
  NoDup l ->
  forall k i,
    nth_error l i = Some r ->
    contributions loaded_avg_speeds s e r (combine (seq k (List.length l)) l) =
    [window_mean (nth (k + i) loaded_avg_speeds []) s e].
Proof.
  induction l as [|x l IH]; intros Hnd k i Hi; [now destruct i|].
  inversion Hnd as [|? ? Hx Hl]; subst.
  unfold contributions. cbn [List.length seq combine flat_map fst snd].
  destruct i as [|i]; cbn [nth_error] in Hi.
  - injection Hi as ->. rewrite String.eqb_refl, Nat.add_0_r.
    fold (contributions loaded_avg_speeds s e r (combine (seq (S k) (List.length l)) l)).
    now rewrite (contributions_absent s e r l Hx).
  - assert (E : String.eqb x r = false).
    { apply String.eqb_neq. intros ->. apply Hx. exact (nth_error_In _ _ Hi). }
    rewrite E. cbn [app].
    fold (contributions loaded_avg_speeds s e r (combine (seq (S k) (List.length l)) l)).
    rewrite (IH Hl (S k) i Hi). do 3 f_equal. lia.
Qed.

Lemma contributions_length (s e : Z) (r : string) (l : list string) :
  forall k,
    List.length (contributions loaded_avg_speeds s e r (combine (seq k (List.length l)) l)) =
    count_occ string_dec l r.
Proof.
  unfold contributions. induction l as [|x l IH]; intros k; [reflexivity|].
  cbn [List.length seq combine flat_map fst snd count_occ].
  rewrite length_app, IH.
  destruct (string_dec x r) as [->|N].
  - now rewrite String.eqb_refl.
  - apply String.eqb_neq in N. now rewrite N.
Qed.

Variable run_ids : list string.

(** With distinct run identifiers the engine files every run under its own
    name: the dictionary has the identifiers in run order, and under each the
    25 window means of the frame at the same place in the list of the loaded
    frames, next to the 25 means of the ground truth and the 25 timestamps. *)
Theorem engine_distinct_runs
  (truth : list F) (estimations : Dict.t (list F)) (timestamps : list Z) :
  NoDup run_ids ->
  __generate_aligned_estimations run_ids loaded_avg_speeds cars =
    Ok (truth, estimations, timestamps) ->
  truth = truth_series cars /\
  timestamps = Spec.window_ends /\
  Dict.keys estimations = run_ids /\
  forall i id estimation,
    nth_error run_ids i = Some id ->
    nth_error loaded_avg_speeds i = Some estimation ->
    Dict.get estimations id = Some (run_series estimation).
Proof.
  intros Hnd He.
  pose proof (engine_ok_ready cars loaded_avg_speeds run_ids _ He) as Hready.
  destruct (engine_spec cars loaded_avg_speeds run_ids Hready) as (d & Hd & Hk & Hg).
  rewrite Hd in He. injection He as <- <- <-.
  split; [reflexivity|]. split; [reflexivity|].
  split; [rewrite Hk; now apply keys_of_keys_distinct|].
  intros i id estimation Hi Hn. rewrite (Hg id (nth_error_In _ _ Hi)). f_equal.
  unfold filed_under, run_series. rewrite <- flat_map_singleton.
  apply flat_map_ext. intros s. unfold enumerate.
  rewrite (contributions_distinct s (s + 60)%Z id run_ids Hnd 0 i Hi).
  cbn [Nat.add]. now rewrite (nth_error_nth _ _ _ Hn).
Qed.

(** The list the engine keeps under a run identifier grows by one value per
    window for every run that has that identifier: 25 values for an
    identifier used once, 50 for one used twice, while the ground truth and
    the timestamps have 25. *)
Theorem engine_lists_length
  (truth : list F) (estimations : Dict.t (list F)) (timestamps : list Z) :
  __generate_aligned_estimations run_ids loaded_avg_speeds cars =
    Ok (truth, estimations, timestamps) ->
  List.length truth = 25 /\
  List.length timestamps = 25 /\
  forall r, In r run_ids ->
    exists l, Dict.get estimations r = Some l /\
              List.length l = 25 * count_occ string_dec run_ids r.
Proof.
  intros He.
  pose proof (engine_ok_ready cars loaded_avg_speeds run_ids _ He) as Hready.
  destruct (engine_spec cars loaded_avg_speeds run_ids Hready) as (d & Hd & Hk & Hg).
  rewrite Hd in He. injection He as <- <- <-.
  split; [apply series_lengths; exact []|]. split; [reflexivity|].
  intros r Hr. eexists. split; [exact (Hg r Hr)|].
  unfold filed_under.
  rewrite (flat_map_length_const _ (count_occ string_dec run_ids r)).
  - reflexivity.
  - intros s. unfold enumerate. apply contributions_length.
Qed.

End RunLists.

(** ** More on the report *)

Lemma nth_window_start (i : nat) (s : Z) :
  nth_error Spec.window_starts i = Some s -> s = (300 + 60 * Z.of_nat i)%Z.
Proof.
  unfold Spec.window_starts. rewrite nth_error_map, nth_error_seq.
  destruct (i <? 25); [|discriminate]. cbn [option_map Nat.add]. now intros [= <-].
Qed.

Lemma take_rows_In_iff {A : Type} (keep : nat -> bool) (l : list A) (a : A) :
  In a (take_rows keep l) <-> exists i, keep i = true /\ nth_error l i = Some a.
Proof.
  split; [apply take_rows_In|].
  intros (i & Hk & Hi). unfold take_rows. apply in_map_iff.
  exists (i, a). split; [reflexivity|]. apply filter_In.
  split; [now apply in_enumerate|exact Hk].
Qed.

Section MoreReport.

Context `{Float64}.
Variable w : world.

(** What a table that was built tells about the call *)
Lemma comparison_table_ok_inv (logs : list string) (t : list event)
  (r : list string * string * DataFrame) :
  comparison_table w logs = (t, Ok r) ->
  exists log id estimation cars_path cars,
    logs = [log] /\
    __load_log w log = Ok (id, estimation, Some cars_path) /\
    has_frameId estimation = true /\
    read_csv w (cars_path ++ "cars.csv")%string = Some cars /\
    t = [ReadCsv (cars_path ++ "cars.csv")%string] /\
    r = ([id], cars_path, comparison_rows id (truth_series cars) (run_series estimation)).
Proof.
  intros Htable. destruct logs as [|log [|log2 rest]].
  - rewrite comparison_table_nil in Htable. discriminate.
  - pose proof (comparison_table_one_log w log) as Hc.
    destruct (__load_log w log) as [[[id estimation] [p|]]|e] eqn:Hload;
      [|rewrite Hc in Htable; discriminate|rewrite Hc in Htable; discriminate].
    destruct (read_csv w (p ++ "cars.csv")%string) as [cars|] eqn:Hcsv;
      [|rewrite Hc in Htable; discriminate].
    destruct (has_frameId estimation) eqn:Hf; [|rewrite Hc in Htable; discriminate].
    rewrite Hc in Htable. injection Htable as <- <-.
    exists log, id, estimation, p, cars. repeat split; assumption.
  - destruct (comparison_table_several w (log :: log2 :: rest)) as (t' & e & Hc & _).
    { cbn [List.length]. lia. }
    rewrite Hc in Htable. discriminate.
Qed.

(** The trace of a table that was not built *)
Lemma comparison_table_raise_trace (logs : list string) (t : list event) (e : exn) :
  comparison_table w logs = (t, Raise e) ->
  t = [] \/ exists path, t = [ReadCsv path].
Proof.
  intros Htable. destruct logs as [|log [|log2 rest]].
  - rewrite comparison_table_nil in Htable. injection Htable as <- _. now left.
  - pose proof (comparison_table_one_log w log) as Hc.
    destruct (__load_log w log) as [[[id estimation] [p|]]|e'];
      [|rewrite Hc in Htable; injection Htable as <- _; now left
       |rewrite Hc in Htable; injection Htable as <- _; now left].
    destruct (read_csv w (p ++ "cars.csv")%string) as [cars|];
      [|rewrite Hc in Htable; injection Htable as <- _; right; now eexists].
    destruct (has_frameId estimation); rewrite Hc in Htable; [discriminate|].
    injection Htable as <- _. right. now eexists.
  - destruct (comparison_table_several w (log :: log2 :: rest)) as (t' & e' & Hc & Ht).
    { cbn [List.length]. lia. }
    rewrite Hc in Htable. injection Htable as <- _. exact Ht.
Qed.

(** Without a directory, not even the empty one, the join of the first file
    name raises. *)
Lemma plot_none (logs : list string) (t : list event)
  (r : list string * string * DataFrame) :
  comparison_table w logs = (t, Ok r) ->
  plot_absolute_error w logs None = (t, Raise TypeError).
Proof.
  intros Htable. unfold plot_absolute_error. rewrite Htable.
  destruct r as [[run_ids cars_path] df]. rewrite mbind_ok. cbn beta iota.
  rewrite mbind_lift_raise. cbn [fst snd]. now rewrite app_nil_r.
Qed.


(** A call whose directory is [None] always raises, and so leaves nothing. *)
Theorem none_directory_raises (logs : list string) :
  exists t e,
    plot_absolute_error w logs None = (t, Raise e) /\
    (t = [] \/ exists path, t = [ReadCsv path]).
Proof.
  destruct (comparison_table w logs) as [t0 [r|e0]] eqn:Htable.
  - exists t0, TypeError. split; [exact (plot_none _ _ _ Htable)|].
    destruct (comparison_table_ok_inv _ _ _ Htable)
      as (log & id & estimation & p & cars & _ & _ & _ & _ & -> & _).
    right. now eexists.
  - exists t0, e0. split; [exact (plot_raise w _ _ _ _ Htable)|].
    exact (comparison_table_raise_trace _ _ _ Htable).
Qed.

(** A window is a row of the table exactly when both its means are there:
    the timestamp of a window of the schedule is in the column of the
    timestamps if and only if neither the mean of the ground truth nor the
    mean of the run is NaN in that window. *)
Theorem retained_timestamps
  (log : string) (id : string) (estimation : list line_dict) (cars_path : string)
  (cars : list car) :
  __load_log w log = Ok (id, estimation, Some cars_path) ->
  has_frameId estimation = true ->
  read_csv w (cars_path ++ "cars.csv")%string = Some cars ->
  exists df timestamps,
    comparison_table w [log] =
      ([ReadCsv (cars_path ++ "cars.csv")%string], Ok ([id], cars_path, df)) /\
    Dict.get df "timestamps" = Some (IntCol timestamps) /\
    forall k s,
      nth_error Spec.window_starts k = Some s ->
      (In (s + 60)%Z timestamps <->
       isnan (__avg_speed_for_time_ground_truth cars s (s + 60)%Z) = false /\
       isnan (window_mean estimation s (s + 60)%Z) = false).
Proof.
  intros Hload Hf Hcsv.
  destruct (load_log_ok _ _ _ Hload) as (lines & _ & _ & E). injection E as Hid _ _.
  destruct (run_identifier_columns (first_line_path lines)) as (_ & E2 & _).
  rewrite <- Hid in E2.
  exists (comparison_rows id (truth_series cars) (run_series estimation)),
         (retained_rows (truth_series cars) (run_series estimation) Spec.window_ends).
  split; [now apply comparison_table_one_run|]. split.
  { unfold comparison_rows. cbn [Dict.get]. rewrite E2.
    change (String.eqb "truth" "timestamps") with false.
    now rewrite String.eqb_refl. }
  intros k s Hk. unfold retained_rows. rewrite take_rows_In_iff.
  assert (Hends : forall i x, nth_error Spec.window_ends i = Some x ->
                    exists s', nth_error Spec.window_starts i = Some s' /\ x = (s' + 60)%Z).
  { intros i x. rewrite <- window_ends_of_starts, nth_error_map.
    destruct (nth_error Spec.window_starts i) as [s'|]; [|discriminate].
    cbn [option_map]. intros [= <-]. now exists s'. }
  assert (Hkeep : retained (truth_series cars) (run_series estimation) k = true <->
            isnan (__avg_speed_for_time_ground_truth cars s (s + 60)%Z) = false /\
            isnan (window_mean estimation s (s + 60)%Z) = false).
  { unfold retained, truth_series, run_series.
    rewrite (map_nth_error _ _ _ Hk), (map_nth_error _ _ _ Hk).
    rewrite negb_true_iff, orb_false_iff. reflexivity. }
  rewrite <- Hkeep. split.
  - intros (i & Hi & Hx). destruct (Hends i _ Hx) as (s' & Hs' & E).
    apply nth_window_start in Hs'. pose proof (nth_window_start _ _ Hk) as Hs.
    assert (i = k) by lia. now subst i.
  - intros Hr. exists k. split; [exact Hr|].
    rewrite <- window_ends_of_starts.
    exact (map_nth_error (fun s => (s + 60)%Z) k Spec.window_starts Hk).
Qed.

(** The name of a file of the report never starts with a slash. *)
Lemma report_name_relative (cars_path suffix : string) :
  PyStr.startswith (report_name w cars_path suffix) "/" = false.
Proof.
  unfold report_name, PyStr.startswith.
  assert (Hs : PyStr.contains "/" (last_segment cars_path) = false).
  { rewrite last_segment_spec. apply after_last_clean. }
  destruct (last_segment cars_path) as [|a seg]; [reflexivity|].
  cbn [PyStr.contains] in Hs. apply orb_false_iff in Hs as [Ha _].
  cbn [String.append String.prefix].
  destruct (ascii_dec "/" a) as [<-|_]; [discriminate Ha|reflexivity].
Qed.


(** [main] shows nothing: when it ends well it has loaded the one log it
    names, read the ground truth of its video and written the two charts and
    the summary into [logs/]. *)
Theorem main_report (t : list event) :
  main w = (t, Ok tt) ->
  exists id estimation cars_path cars fig1 fig2 series,
    __load_log w "speed_estimation/logs/xyz.log" = Ok (id, estimation, Some cars_path) /\
    read_csv w (cars_path ++ "cars.csv")%string = Some cars /\
    t = [ReadCsv (cars_path ++ "cars.csv")%string;
         WriteImage ("logs/" ++ report_name w cars_path "_estimations.pdf")%string fig1;
         WriteImage ("logs/" ++ report_name w cars_path "_mae.pdf")%string fig2;
         ToCsv ("logs/" ++ report_name w cars_path "_error.csv")%string series].
Proof.
  unfold main. intros Hmain.
  destruct (comparison_table w ["speed_estimation/logs/xyz.log"]) as [t0 [r|e0]] eqn:Htable;
    [|rewrite (plot_raise w _ _ _ _ Htable) in Hmain; discriminate].
  destruct (comparison_table_ok_inv _ _ _ Htable)
    as (log & id & estimation & p & cars & Hlog & Hload & Hf & Hcsv & _ & _).
  injection Hlog as <-.
  rewrite (plot_one_run w _ _ _ _ _ "logs/" Hload Hf Hcsv) in Hmain.
  injection Hmain as <-.
  assert (Hfile : forall suffix,
            report_file w "logs/" p suffix = ("logs/" ++ report_name w p suffix)%string).
  { intros suffix. unfold report_file, os_path_join.
    fold (report_name w p suffix). now rewrite report_name_relative. }
  rewrite !Hfile. change (String.eqb "logs/" "") with false. cbn iota.
  eexists id, estimation, p, cars, _, _, _.
  split; [exact Hload|]. split; [exact Hcsv|reflexivity].
Qed.

End MoreReport.

(** ** The lines a load skips, and the series of the charts *)

Section Skipped.

Context `{Float64}.
Variable w : world.

Lemma read_records_candidates (lines : list string) :
  forall acc,
    read_records w lines acc = read_records w (filter is_candidate lines) acc.
Proof.
  unfold is_candidate.
  induction lines as [|line rest IH]; intros acc; [reflexivity|].
  cbn [filter read_records].
  destruct (PyStr.startswith line record_marker) eqn:E; cbn [negb].
  - cbn [read_records]. rewrite E. cbn [negb].
    destruct (json_loads w (PyStr.drop 10 line)) as [d|]; [|reflexivity].
    destruct (is_some (avgSpeedTowards d)); apply IH.
  - apply IH.
Qed.

(** The lines that do not begin with the record marker are skipped without
    any effect: two logs with one first line and, below it, the same lines
    that begin with the marker in the same order load alike, whatever else
    stands between those lines; and they raise alike. *)
Theorem load_log_skips_other_lines
  (log1 log2 : string) (line : string) (rest1 rest2 : list string) :
  open_log w log1 = Some (line :: rest1) ->
  open_log w log2 = Some (line :: rest2) ->
  filter is_candidate rest1 = filter is_candidate rest2 ->
  __load_log w log1 = __load_log w log2.
Proof.
  intros H1 H2 Hsame. unfold __load_log. rewrite H1, H2.
  cbn [first_line_path].
  rewrite (read_records_candidates (line :: rest1)),
          (read_records_candidates (line :: rest2)).
  cbn [filter]. now rewrite Hsame.
Qed.


End Skipped.

(** ** The sample world: instances of the theorems, and the places where the
    code leaves the specification *)

Lemma log_a_well_formed : well_formed Sample.sample_world Sample.log_a.
Proof.
  intros line Hin.
  repeat (destruct Hin as [<-|Hin];
          [vm_compute; intros E; first [discriminate E|discriminate]|]).
  contradiction.
Qed.

Lemma log_b_well_formed : well_formed Sample.sample_world Sample.log_b.
Proof.
  intros line Hin.
  repeat (destruct Hin as [<-|Hin];
          [vm_compute; intros E; first [discriminate E|discriminate]|]).
  contradiction.
Qed.

Lemma load_log_a : __load_log Sample.sample_world "a.log" = Ok Sample.loaded_a.
Proof. vm_compute. reflexivity. Qed.

Lemma load_log_observation_count_witness :
  exists id estimation cars_path,
    __load_log Sample.sample_world "a.log" = Ok (id, estimation, cars_path) /\
    estimation = observations Sample.sample_world Sample.log_a /\
    List.length estimation =
      List.length (filter (carries_speed Sample.sample_world) Sample.log_a) /\
    List.length (filter is_candidate Sample.log_a) =
      List.length estimation +
      List.length (filter (lacks_speed Sample.sample_world) Sample.log_a).
Proof.
  apply (load_log_observation_count Sample.sample_world "a.log" Sample.log_a).
  - reflexivity.
  - exact log_a_well_formed.
Defined.

Lemma load_log_run_identifier_witness :
  Some "/data/videoA/" = first_line_path Sample.log_a /\
  "videoA_depth_0" = (Spec.last_path_segment "/data/videoA/" ++ "_depth_0")%string.
Proof.
  apply (load_log_run_identifier Sample.sample_world "a.log" Sample.log_a
           "videoA_depth_0" Sample.frames_a (Some "/data/videoA/")).
  - reflexivity.
  - exact load_log_a.
Defined.

Lemma window_bounds_witness :
  (In Sample.frame_15000 Sample.frames_a /\ In Sample.frame_18000 Sample.frames_a) /\
  ~ In Sample.frame_15000
       (filter (frame_selected (300 * 50) (360 * 50)) Sample.frames_a) /\
  In Sample.frame_18000
     (filter (frame_selected (300 * 50) (360 * 50)) Sample.frames_a) /\
  __avg_speed_for_time_estimation Sample.frames_a 300 360 =
    Ok (mean (map speed_cell
                  (filter (frame_selected (300 * 50) (360 * 50)) Sample.frames_a))) /\
  mean (map speed_cell
            (filter (frame_selected (300 * 50) (360 * 50)) Sample.frames_a)) =
    Some (42 # 1)%Q.
Proof.
  assert (Ha : In Sample.frame_15000 Sample.frames_a) by (left; reflexivity).
  assert (Hb : In Sample.frame_18000 Sample.frames_a) by (right; left; reflexivity).
  assert (Hlt : (300 < 360)%Z) by reflexivity.
  destruct (window_bounds Sample.frames_a Sample.cars_a 300 360 Sample.frame_15000
              15000%Z Ha eq_refl eq_refl Hlt) as (Hmean & _ & Hout & _).
  destruct (window_bounds Sample.frames_a Sample.cars_a 300 360 Sample.frame_18000
              18000%Z Hb eq_refl eq_refl Hlt) as (_ & _ & _ & Hin & _).
  split; [split; assumption|].
  split; [exact (Hout eq_refl)|].
  split; [exact (Hin eq_refl)|].
  split; [exact Hmean|].
  vm_compute. reflexivity.
Defined.

Lemma different_videos_abort_witness :
  comparison_table Sample.sample_world ["a.log"; "d.log"] =
    ([], Raise (Exception same_video_message)) /\
  plot_absolute_error Sample.sample_world ["a.log"; "d.log"] (Some "logs/") =
    ([], Raise (Exception same_video_message)) /\
  Exception same_video_message <> JSONDecodeError.
Proof.
  apply (different_videos_abort Sample.sample_world ["a.log"; "d.log"] (Some "logs/")
           [Sample.loaded_a; Sample.loaded_d] Sample.loaded_a Sample.loaded_d).
  - vm_compute. reflexivity.
  - left. reflexivity.
  - right. left. reflexivity.
  - discriminate.
Defined.

Lemma unknown_video_aborts_witness :
  (forall log, In log ["b.log"] ->
     exists estimation,
       __load_log Sample.sample_world log = Ok ("-1_depth_0", estimation, None)) /\
  (exists loaded,
     map_result (__load_log Sample.sample_world) ["b.log"] = Ok loaded /\
     check_same_video None (map snd loaded) = Ok tt) /\
  comparison_table Sample.sample_world ["b.log"] = ([], Raise TypeError) /\
  plot_absolute_error Sample.sample_world ["b.log"] (Some "logs/") =
    ([], Raise TypeError).
Proof.
  apply (unknown_video_aborts Sample.sample_world ["b.log"] (Some "logs/")).
  - discriminate.
  - intros log [<-|[]]. exists Sample.log_b.
    split; [reflexivity|]. split; [exact log_b_well_formed|].
    vm_compute. reflexivity.
Defined.

Lemma error_view_signed_difference_witness :
  exists log id estimation cars_path cars first,
    ["a.log"] = [log] /\
    __load_log Sample.sample_world log = Ok (id, estimation, Some cars_path) /\
    read_csv Sample.sample_world (cars_path ++ "cars.csv")%string = Some cars /\
    signed_error (truth_series cars) (run_series estimation) =
      map2 fsub (run_series estimation) (truth_series cars) /\
    fst (plot_absolute_error Sample.sample_world ["a.log"] (Some "logs/")) =
    [ReadCsv (cars_path ++ "cars.csv")%string;
     first;
     WriteImage (report_file Sample.sample_world "logs/" cars_path "_mae.pdf")
       {| title := ("Mean Absolute Error (" ++ cars_path ++ ")")%string;
          x := "timestamps"; y := [id; "timestamps"];
          data :=
            [("truth",
              FloatCol (retained_rows (truth_series cars) (run_series estimation)
                                      (truth_series cars)));
             (id,
              FloatCol (retained_rows (truth_series cars) (run_series estimation)
                          (signed_error (truth_series cars) (run_series estimation))));
             ("timestamps",
              IntCol (retained_rows (truth_series cars) (run_series estimation)
                                    Spec.window_ends))] |};
     ToCsv (report_file Sample.sample_world "logs/" cars_path "_error.csv")
       [(id, mean (retained_rows (truth_series cars) (run_series estimation)
                     (signed_error (truth_series cars) (run_series estimation))))]].
Proof.
  apply (error_view_signed_difference Sample.sample_world ["a.log"] "logs/"
           (fst (plot_absolute_error Sample.sample_world ["a.log"] (Some "logs/")))).
  vm_compute. reflexivity.
Defined.

(** C2, where the code leaves the claim: a log of the video without any
    record of a speed loads into a frame without columns, and the engine
    raises on the first window instead of returning the 25 windows; so does
    the whole call, after the ground truth was read. *)
Example engine_raises_without_observations :
  __load_log Sample.sample_world "e.log" =
    Ok ("videoA_depth_0", [], Some "/data/videoA/") /\
  __generate_aligned_estimations ["videoA_depth_0"] [[]] Sample.cars_a =
    Raise (KeyError "frameId") /\
  plot_absolute_error Sample.sample_world ["e.log"] (Some "logs/") =
    ([ReadCsv "/data/videoA/cars.csv"], Raise (KeyError "frameId")).
Proof. repeat split; vm_compute; reflexivity. Qed.

(** C8, where the code leaves the claim: on the frame of a log without any
    observation the estimation aggregator raises instead of returning NaN,
    while the ground-truth aggregator returns NaN on a table without rows. *)
Example empty_frame_raises :
  __avg_speed_for_time_estimation (H := Sample.rational) [] 300 360 =
    Raise (KeyError "frameId") /\
  isnan (__avg_speed_for_time_ground_truth (H := Sample.rational) [] 300 360) = true.
Proof. split; reflexivity. Qed.

(** C3, where the code leaves the claim: with the empty string for the
    directory the first chart is shown, and the second chart and the summary
    are still written, into the working directory. *)
Example empty_directory_writes_files :
  exists fig1 fig2 series,
    plot_absolute_error Sample.sample_world ["a.log"] (Some "") =
    ([ReadCsv "/data/videoA/cars.csv";
      Show fig1;
      WriteImage "videoA_0123456789_mae.pdf" fig2;
      ToCsv "videoA_0123456789_error.csv" series],
     Ok tt).
Proof. eexists _, _, _. vm_compute. reflexivity. Qed.

(** C4, where the code leaves the claim: two logs of one video load under one
    run identifier, and the call raises where the table is built, after the
    ground truth was read; no table with three value columns is made. *)
Example two_runs_of_one_video_fail :
  __load_log Sample.sample_world "a.log" = Ok Sample.loaded_a /\
  (exists estimation,
     __load_log Sample.sample_world "c.log" =
       Ok ("videoA_depth_0", estimation, Some "/data/videoA/")) /\
  plot_absolute_error Sample.sample_world ["a.log"; "c.log"] (Some "logs/") =
    ([ReadCsv "/data/videoA/cars.csv"], Raise ValueError).
Proof.
  split; [exact load_log_a|].
  split; [eexists; vm_compute; reflexivity|].
  vm_compute. reflexivity.
Qed.

Lemma frames_a_columns :
  Forall (fun estimation =>
            has_frameId estimation = true /\ has_avgSpeedTowards estimation = true)
         [Sample.frames_a].
Proof. constructor; [split; reflexivity|constructor]. Qed.

Lemma engine_schedule_witness :
  exists estimations,
    __generate_aligned_estimations ["videoA_depth_0"] [Sample.frames_a] Sample.cars_a =
      Ok (truth_series Sample.cars_a, estimations, Spec.window_ends) /\
    List.length (truth_series Sample.cars_a) = 25 /\
    forall k, In k ["videoA_depth_0"] -> In k (Dict.keys estimations).
Proof.
  apply (engine_schedule Sample.cars_a [Sample.frames_a] frames_a_columns
           ["videoA_depth_0"]).
  apply le_n.
Defined.

Lemma empty_window_is_nan_witness :
  (exists v, __avg_speed_for_time_estimation Sample.frames_a 420 480 = Ok v /\
             isnan v = true) /\
  isnan (__avg_speed_for_time_ground_truth Sample.cars_a 420 480) = true.
Proof.
  apply (empty_window_is_nan Sample.frames_a Sample.cars_a 420 480); reflexivity.
Defined.

Lemma table_has_no_missing_value_witness :
  comparison_table Sample.sample_world ["a.log"] =
    ([ReadCsv "/data/videoA/cars.csv"],
     Ok (["videoA_depth_0"], "/data/videoA/",
         [("truth", FloatCol (H := Sample.rational) [Some (40 # 1)%Q]);
          ("videoA_depth_0", FloatCol (H := Sample.rational) [Some (42 # 1)%Q]);
          ("timestamps", IntCol [360%Z])])) /\
  isnan (Float64 := Sample.rational) (Some (42 # 1)%Q) = false.
Proof.
  assert (E : comparison_table Sample.sample_world ["a.log"] =
    ([ReadCsv "/data/videoA/cars.csv"],
     Ok (["videoA_depth_0"], "/data/videoA/",
         [("truth", FloatCol (H := Sample.rational) [Some (40 # 1)%Q]);
          ("videoA_depth_0", FloatCol (H := Sample.rational) [Some (42 # 1)%Q]);
          ("timestamps", IntCol [360%Z])]))).
  { vm_compute. reflexivity. }
  split; [exact E|].
  apply (table_has_no_missing_value Sample.sample_world ["a.log"] _ _ _ _
           "videoA_depth_0" [Some (42 # 1)%Q] (Some (42 # 1)%Q) E).
  - right. left. reflexivity.
  - left. reflexivity.
Defined.

Lemma several_logs_never_report_witness :
  exists t e,
    plot_absolute_error Sample.sample_world ["a.log"; "c.log"] (Some "logs/") =
      (t, Raise e) /\
    (t = [] \/ exists path, t = [ReadCsv path]).
Proof.
  apply (several_logs_never_report Sample.sample_world ["a.log"; "c.log"] (Some "logs/")).
  apply le_n.
Defined.


Lemma load_log_c : __load_log Sample.sample_world "c.log" = Ok Sample.loaded_c.
Proof. vm_compute. reflexivity. Qed.

Lemma load_log_same_video_same_id_witness :
  __load_log Sample.sample_world "a.log" = Ok Sample.loaded_a /\
  __load_log Sample.sample_world "c.log" = Ok Sample.loaded_c /\
  fst (fst Sample.loaded_a) = fst (fst Sample.loaded_c).
Proof.
  split; [exact load_log_a|]. split; [exact load_log_c|].
  exact (load_log_same_video_same_id Sample.sample_world "a.log" "c.log" _ _ _ _ _
           load_log_a load_log_c).
Defined.

Lemma load_log_records_have_speed_witness :
  Forall (fun d => is_some (avgSpeedTowards d) = true) Sample.frames_a /\
  (has_avgSpeedTowards Sample.frames_a = true <-> Sample.frames_a <> []) /\
  forall timeStart timeEnd,
    __avg_speed_for_time_estimation Sample.frames_a timeStart timeEnd <>
    Raise (KeyError "avgSpeedTowards").
Proof.
  exact (load_log_records_have_speed Sample.sample_world "a.log" _ _ _ load_log_a).
Defined.

Lemma video_line_round_trip_witness :
  first_line_path
    (("INFO:root:" ++ "Video: " ++ "/data/videoA/" ++ Sample.nl)%string :: tl Sample.log_a) =
  Some "/data/videoA/".
Proof.
  apply (video_line_round_trip "INFO:root:" "/data/videoA/" Sample.nl (tl Sample.log_a)).
  - reflexivity.
  - reflexivity.
  - right. exists "". reflexivity.
Defined.

Lemma last_segment_basename_witness :
  last_segment ("/data" ++ "/" ++ "videoA") = "videoA" /\
  last_segment ("/data" ++ "/" ++ "videoA" ++ "/") = "videoA".
Proof.
  apply (last_segment_basename "/data" "videoA").
  - discriminate.
  - reflexivity.
Defined.

Lemma windows_partition_witness :
  ((15000 < 18000 <= 90000)%Z <->
   exists s, In s Spec.window_starts /\
             frame_selected (s * 50) ((s + 60) * 50) Sample.frame_18000 = true) /\
  (forall s1 s2,
     In s1 Spec.window_starts -> In s2 Spec.window_starts ->
     frame_selected (s1 * 50) ((s1 + 60) * 50) Sample.frame_18000 = true ->
     frame_selected (s2 * 50) ((s2 + 60) * 50) Sample.frame_18000 = true ->
     s1 = s2).
Proof.
  apply (windows_partition Sample.frame_18000 18000%Z). reflexivity.
Defined.

Lemma two_frames_ready (i : nat) :
  i < 2 ->
  exists estimation,
    nth_error [Sample.frames_a; [Sample.frame_18000]] i = Some estimation /\
    has_frameId estimation = true /\ has_avgSpeedTowards estimation = true.
Proof.
  intros Hi. destruct i as [|[|i]]; [| |lia]; eexists; repeat split.
Qed.

Lemma engine_distinct_runs_witness :
  exists truth estimations timestamps,
    __generate_aligned_estimations ["a_depth_0"; "b_depth_0"]
      [Sample.frames_a; [Sample.frame_18000]] Sample.cars_a =
      Ok (truth, estimations, timestamps) /\
    truth = truth_series Sample.cars_a /\
    timestamps = Spec.window_ends /\
    Dict.keys estimations = ["a_depth_0"; "b_depth_0"] /\
    forall i id estimation,
      nth_error ["a_depth_0"; "b_depth_0"] i = Some id ->
      nth_error [Sample.frames_a; [Sample.frame_18000]] i = Some estimation ->
      Dict.get estimations id = Some (run_series estimation).
Proof.
  destruct (engine_spec Sample.cars_a [Sample.frames_a; [Sample.frame_18000]]
              ["a_depth_0"; "b_depth_0"] two_frames_ready) as (d & Hd & _).
  eexists _, d, _. split; [exact Hd|].
  apply (engine_distinct_runs Sample.cars_a [Sample.frames_a; [Sample.frame_18000]]
           ["a_depth_0"; "b_depth_0"] _ d _); [|exact Hd].
  constructor; [intros [E|[]]; discriminate E|].
  constructor; [intros []|constructor].
Defined.

Lemma engine_lists_length_witness :
  exists truth estimations timestamps,
    __generate_aligned_estimations ["videoA_depth_0"; "videoA_depth_0"]
      [Sample.frames_a; [Sample.frame_18000]] Sample.cars_a =
      Ok (truth, estimations, timestamps) /\
    List.length truth = 25 /\
    List.length timestamps = 25 /\
    forall r, In r ["videoA_depth_0"; "videoA_depth_0"] ->
      exists l, Dict.get estimations r = Some l /\
                List.length l =
                25 * count_occ string_dec ["videoA_depth_0"; "videoA_depth_0"] r.
Proof.
  destruct (engine_spec Sample.cars_a [Sample.frames_a; [Sample.frame_18000]]
              ["videoA_depth_0"; "videoA_depth_0"] two_frames_ready) as (d & Hd & _).
  eexists _, d, _. split; [exact Hd|].
  exact (engine_lists_length Sample.cars_a [Sample.frames_a; [Sample.frame_18000]]
           ["videoA_depth_0"; "videoA_depth_0"] _ d _ Hd).
Defined.


Lemma retained_timestamps_witness :
  exists df timestamps,
    comparison_table Sample.sample_world ["a.log"] =
      ([ReadCsv ("/data/videoA/" ++ "cars.csv")%string],
       Ok (["videoA_depth_0"], "/data/videoA/", df)) /\
    Dict.get df "timestamps" = Some (IntCol timestamps) /\
    forall k s,
      nth_error Spec.window_starts k = Some s ->
      (In (s + 60)%Z timestamps <->
       isnan (__avg_speed_for_time_ground_truth Sample.cars_a s (s + 60)%Z) = false /\
       isnan (window_mean Sample.frames_a s (s + 60)%Z) = false).
Proof.
  apply (retained_timestamps Sample.sample_world "a.log" "videoA_depth_0"
           Sample.frames_a "/data/videoA/" Sample.cars_a).
  - exact load_log_a.
  - reflexivity.
  - reflexivity.
Defined.

Lemma main_report_witness :
  exists id estimation cars_path cars fig1 fig2 series,
    __load_log Sample.main_world "speed_estimation/logs/xyz.log" =
      Ok (id, estimation, Some cars_path) /\
    read_csv Sample.main_world (cars_path ++ "cars.csv")%string = Some cars /\
    fst (main Sample.main_world) =
    [ReadCsv (cars_path ++ "cars.csv")%string;
     WriteImage ("logs/" ++ report_name Sample.main_world cars_path "_estimations.pdf")%string
                fig1;
     WriteImage ("logs/" ++ report_name Sample.main_world cars_path "_mae.pdf")%string fig2;
     ToCsv ("logs/" ++ report_name Sample.main_world cars_path "_error.csv")%string series].
Proof.
  apply (main_report Sample.main_world (fst (main Sample.main_world))).
  vm_compute. reflexivity.
Defined.

Lemma load_log_skips_other_lines_witness :
  __load_log Sample.plain_world "a.log" = __load_log Sample.plain_world "plain.log".
Proof.
  apply (load_log_skips_other_lines Sample.plain_world "a.log" "plain.log"
           (hd "" Sample.log_a) (tl Sample.log_a) (tl Sample.log_plain));
    reflexivity.
Defined.

